(** * amplifier-module-tool-m365: the Microsoft 365 collaboration provider

    A shallow embedding of [providers/m365.py]: the configuration loader
    [M365Config.from_env], the provider constructor and the provider's
    methods, against an explicit model of the Microsoft Graph service and of
    the webhook endpoint.

    Conventions.
    - A Python [str] is a [string]; each [ascii] stands for the code point
      of the same number, so the model covers the strings whose code points
      are below 256.
    - A Python value that may be [None] is an [option]; [x or d],
      [if x], [not x] follow Python's truth value ([None], the empty
      string and the empty list are false).
    - A [dict] keeps insertion order: it is an association list in which a
      key occurs once, updated in place.
    - An [await]ed call is a step of the [M] monad: it records the request
      in the call log and returns the service's answer or raises.
    - Two facts of the libraries that the module calls are part of the
      model: the msgraph builder of a site's drive has neither [root] nor
      [items] ([site_drive_attr]), and the constructor of azure-identity's
      credential validates its values ([credential_check]). *)

From Stdlib Require Import Strings.String Strings.Ascii Strings.Byte.
From Stdlib Require Import List ZArith NArith Bool Arith Lia.
Import ListNotations.
Open Scope string_scope.
Open Scope list_scope.

(** ** Python values *)

Module Py.

(** Truth value of [Optional[str]]. *)
Definition truthy (o : option string) : bool :=
  match o with
  | None => false
  | Some "" => false
  | Some _ => true
  end.

(** [x or d] for an optional string [x] and a string [d]. *)
Definition or_str (o : option string) (d : string) : string :=
  match o with
  | Some s => if truthy o then s else d
  | None => d
  end.

(** [d.get(k, default)] once the lookup is done: only an absent value takes
    the default. *)
Definition default (o : option string) (d : string) : string :=
  match o with
  | Some s => s
  | None => d
  end.

(** [x or y] for two optional strings. *)
Definition or_else (a b : option string) : option string :=
  if truthy a then a else b.

(** [x or []] for an optional list. *)
Definition or_nil {A} (o : option (list A)) : list A :=
  match o with
  | Some l => l
  | None => []
  end.

(** [c in s] for a one-character string [c]. *)
Fixpoint contains (c : ascii) (s : string) : bool :=
  match s with
  | "" => false
  | String a s' => Ascii.eqb a c || contains c s'
  end.

(** [s.split(c)] for a one-character separator. *)
Fixpoint split (c : ascii) (s : string) : list string :=
  match s with
  | "" => [""]
  | String a s' =>
      if Ascii.eqb a c then "" :: split c s'
      else match split c s' with
           | h :: t => String a h :: t
           | [] => [String a ""]
           end
  end.

(** [s.split(c, 1)] for a string [s] that contains [c]: the text before
    the first [c] and the text after it. *)
Fixpoint split1 (c : ascii) (s : string) : string * string :=
  match s with
  | "" => ("", "")
  | String a s' =>
      if Ascii.eqb a c then ("", s')
      else let (h, t) := split1 c s' in (String a h, t)
  end.

(** [sep.join(l)]. *)
Fixpoint join (sep : string) (l : list string) : string :=
  match l with
  | [] => ""
  | [x] => x
  | x :: t => x ++ sep ++ join sep t
  end.

(** [str.isspace] on one character: the white space of [str.strip()]
    below code point 256. *)
Definition isspace (a : ascii) : bool :=
  let n := nat_of_ascii a in
  (((9 <=? n) && (n <=? 13)) || ((28 <=? n) && (n <=? 32))
   || (n =? 133) || (n =? 160))%nat.

Fixpoint lstrip (s : string) : string :=
  match s with
  | "" => ""
  | String a s' => if isspace a then lstrip s' else s
  end.

Fixpoint rstrip (s : string) : string :=
  match s with
  | "" => ""
  | String a s' =>
      match rstrip s' with
      | "" => if isspace a then "" else String a ""
      | r => String a r
      end
  end.

(** [s.strip()]. *)
Definition strip (s : string) : string := rstrip (lstrip s).

(** [l[:n]] for an [int] [n]: a negative [n] counts from the end. *)
Definition slice_to {A} (n : Z) (l : list A) : list A :=
  if (0 <=? n)%Z then firstn (Z.to_nat n) l
  else firstn (length l - Z.to_nat (- n)) l.

(** [s.encode("utf-8")]: one byte below 128, two bytes from 128 to 255. *)
Definition encode_char (a : ascii) : list byte :=
  let n := N_of_ascii a in
  if (n <? 128)%N then [byte_of_ascii a]
  else [byte_of_ascii (ascii_of_N (192 + N.shiftr n 6));
        byte_of_ascii (ascii_of_N (128 + N.land n 63))].

Fixpoint encode_utf8 (s : string) : list byte :=
  match s with
  | "" => []
  | String a s' => encode_char a ++ encode_utf8 s'
  end.

(** *** Insertion-ordered dictionaries with string keys *)

Definition dict (V : Type) := list (string * V).

Fixpoint get {V} (k : string) (d : dict V) : option V :=
  match d with
  | [] => None
  | (k', v) :: d' => if String.eqb k k' then Some v else get k d'
  end.

(** [d[k] = v]: a present key keeps its place and takes the new value, a
    new key goes to the end. *)
Fixpoint set {V} (k : string) (v : V) (d : dict V) : dict V :=
  match d with
  | [] => [(k, v)]
  | (k', v') :: d' =>
      if String.eqb k k' then (k', v) :: d' else (k', v') :: set k v d'
  end.

Definition keys {V} (d : dict V) : list string := map fst d.

End Py.

(** ** Exceptions and the call monad *)

(** The pieces of an f-string: literal text, a [str] value formatted in
    place, and a list of [str] formatted in place (Python prints it with
    [repr]; the model keeps the list). *)
Inductive fpart :=
| FLit (s : string)
| FStr (s : string)
| FList (l : list string).

(** Exceptions derived from [Exception]: the [ValueError]s the module
    raises with their message, the [AttributeError] of a field read on
    [None], and whatever the Graph client or the HTTP transport raises. *)
Inductive exn :=
| ValueError (msg : list fpart)
| AttributeError
| TransportError (what : string).

Inductive result (A : Type) :=
| Ok (a : A)
| Raise (e : exn).
Arguments Ok {A} a.
Arguments Raise {A} e.

(** JSON bodies. *)
Unset Elimination Schemes.
Inductive json :=
| JStr (s : string)
| JArr (l : list json)
| JObj (fields : list (string * json)).
Set Elimination Schemes.

(** The requests the provider's code awaits. *)
Inductive call :=
| UsersGet (top : Z)
| UserGet (user_id : string)
| GroupsGet
| TeamChannelsGet (team_id : string)
| ChannelMessagesGet (team_id channel_id : string)
| SitesGet
| DriveRootChildrenGet (site_id : string)
| DrivePathChildrenGet (site_id path : string)
| DriveContentPut (site_id path : string) (content : list byte)
| PlanTasksGet (plan_id : string)
| HttpPost (url : string) (body : json).

(** A computation threads the log of the requests made so far and ends in
    a value or in a raised exception. *)
Definition M (A : Type) := list call -> result A * list call.

Definition ret {A} (a : A) : M A := fun log => (Ok a, log).
Definition raise {A} (e : exn) : M A := fun log => (Raise e, log).
Definition bind {A B} (m : M A) (k : A -> M B) : M B :=
  fun log =>
    match m log with
    | (Ok a, log') => k a log'
    | (Raise e, log') => (Raise e, log')
    end.

(** [try: m except Exception: h]. *)
Definition try_except {A} (m : M A) (h : M A) : M A :=
  fun log =>
    match m log with
    | (Ok a, log') => (Ok a, log')
    | (Raise _, log') => h log'
    end.

(** An awaited request: logged, then answered. *)
Definition await {A} (c : call) (answer : result A) : M A :=
  fun log => (answer, log ++ [c]).

(** An attribute read on an object that may be [None]. *)
Definition attr {A} (o : option A) : M A :=
  match o with
  | Some a => ret a
  | None => raise AttributeError
  end.

Declare Scope m_scope.
Delimit Scope m_scope with M.
Notation "x <- m ;; k" := (bind m (fun x => k))
  (at level 61, m at next level, right associativity) : m_scope.
Open Scope m_scope.

(** ** Configuration loader *)

Record M365Config := {
  tenant_id : string;
  client_id : string;
  client_secret : string;
  webhooks : Py.dict string   (* channel_name -> webhook_url *)
}.

(** [os.environ.get]. *)
Definition environ := string -> option string.

(** Lines 61-67: the webhook table of ["general=url1,alerts=url2"]. *)
Definition parse_webhooks (webhook_str : string) : Py.dict string :=
  if String.eqb webhook_str "" then []
  else
    fold_left
      (fun webhooks pair =>
         if Py.contains "=" pair then
           let (name, url) := Py.split1 "=" pair in
           Py.set (Py.strip name) (Py.strip url) webhooks
         else webhooks)
      (Py.split "," webhook_str) [].

(** The items of the dict literal of lines 49-53 whose value is false. *)
Definition missing_vars (tenant client secret : option string) : list string :=
  map fst
    (filter (fun kv => negb (Py.truthy (snd kv)))
       [("M365_TENANT_ID", tenant);
        ("M365_CLIENT_ID", client);
        ("M365_CLIENT_SECRET", secret)]).

(** [M365Config.from_env]. *)
Definition from_env (env : environ) : result M365Config :=
  let tenant := env "M365_TENANT_ID" in
  let client := env "M365_CLIENT_ID" in
  let secret := env "M365_CLIENT_SECRET" in
  if negb (Py.truthy tenant) || negb (Py.truthy client)
     || negb (Py.truthy secret)
  then
    Raise (ValueError
             [FLit "Missing required environment variables: ";
              FStr (Py.join ", " (missing_vars tenant client secret))])
  else
    let webhook_str := Py.default (env "M365_TEAMS_WEBHOOKS") "" in
    Ok {| tenant_id := Py.default tenant "";
          client_id := Py.default client "";
          client_secret := Py.default secret "";
          webhooks := parse_webhooks webhook_str |}.

(** ** The Graph service's objects

    The fields of the msgraph models are all optional. *)

Record datetime := { dt_str : string }.   (* a point in time, by its [str()] *)

Record GraphUser := {
  u_id : option string;
  u_display_name : option string;
  u_user_principal_name : option string;
  u_mail : option string;
  u_department : option string
}.

Record Group := {
  g_id : option string;
  g_display_name : option string
}.

Record GraphChannel := {
  c_id : option string;
  c_display_name : option string;
  c_description : option string
}.

Record Identity := { i_display_name : option string }.
Record IdentitySet := { is_user : option Identity }.
Record ItemBody := { b_content : option string }.

Record ChatMessage := {
  m_id : option string;
  m_body : option ItemBody;
  m_from : option IdentitySet;
  m_created_date_time : option datetime
}.

Record Site := { s_id : option string }.

Record DriveItem := {
  d_id : option string;
  d_name : option string;
  d_web_url : option string;
  d_size : option Z;
  d_folder : option unit
}.

Record PlannerTask := {
  t_id : option string;
  t_title : option string;
  t_percent_complete : option Z;
  t_due_date_time : option datetime
}.

(** A collection response: the [value] field may be [None]. *)
Record collection (A : Type) := { value : option (list A) }.
Arguments value {A} c.

(** What the Graph service answers to each request, and what the webhook
    endpoint answers to a POST (the status code of the response). *)
Record Service := {
  users_get : Z -> result (option (collection GraphUser));
  user_get : string -> result (option GraphUser);
  groups_get : result (option (collection Group));
  team_channels_get : string -> result (option (collection GraphChannel));
  channel_messages_get :
    string -> string -> result (option (collection ChatMessage));
  sites_get : result (option (collection Site));
  drive_root_children_get : string -> result (option (collection DriveItem));
  drive_path_children_get :
    string -> string -> result (option (collection DriveItem));
  drive_content_put :
    string -> string -> list byte -> result (option DriveItem);
  plan_tasks_get : string -> result (option (collection PlannerTask));
  http_post : string -> json -> result Z
}.

(** The request builder that the msgraph client returns for
    [sites.by_site_id(site_id).drive] has [get] as its one operation: it
    has neither [root] nor [items], the two attributes the module reads
    from it, and reading either raises [AttributeError] before any request
    is built. *)
Definition site_drive_attr (site_id attribute : string) : M unit :=
  raise AttributeError.

(** ** Domain records

    The dataclasses of the collab-core package, with the fields the
    provider fills. A field holds whatever Python value the provider's
    expression yields, so a field the expression can leave [None] is an
    [option]. *)

Record User := {
  user_id : option string;
  user_display_name : option string;
  user_email : option string;
  user_department : option string
}.

Record Channel := {
  channel_id : option string;
  channel_name : option string;
  channel_description : option string;
  channel_team_id : option string;
  channel_team_name : option string
}.

Record Message := {
  message_id : option string;
  message_content : option string;
  message_sender : option string;
  message_timestamp : option string;
  message_channel_id : option string
}.

Record Document := {
  document_id : option string;
  document_name : option string;
  document_path : option string;
  document_web_url : option string;
  document_size : option Z;
  document_is_folder : bool
}.

Record Task := {
  task_id : option string;
  task_title : option string;
  task_status : option string;
  task_due_date : option string
}.

(** Modelled from the spec: the defaults of the optional fields of
    collab-core's [Channel] and [Document] dataclasses, which the provider
    leaves out at some call sites (spec, data model: [team_name] optional,
    [size] optional, [is_folder] boolean); collab-core is not part of this
    repository's sources. *)
Definition Channel_default_team_name : option string := None.
Definition Document_default_size : option Z := None.
Definition Document_default_is_folder : bool := false.

(** ** The provider *)

Record ClientSecretCredential := {
  cred_tenant_id : string;
  cred_client_id : string;
  cred_client_secret : string
}.

Record GraphServiceClient := { credentials : ClientSecretCredential }.

Record M365Provider := {
  _config : M365Config;
  _credential : ClientSecretCredential;
  _client : GraphServiceClient
}.

(** What building the credential and the Graph client on it raises on
    these three values, if anything: azure-identity's
    [ClientSecretCredential(tenant_id=..., client_id=...,
    client_secret=...)] validates them (a tenant id such as ["my tenant"]
    is a [ValueError]). *)
Definition credential_check := string -> string -> string -> option exn.

(** [M365Provider.__init__(self, config=None)]. *)
Definition M365Provider_init (check : credential_check) (env : environ)
    (config : option (Py.dict string)) : result M365Provider :=
  match from_env env with
  | Raise e => Raise e
  | Ok cfg =>
      match check (tenant_id cfg) (client_id cfg) (client_secret cfg) with
      | Some e => Raise e
      | None =>
          let credential :=
            {| cred_tenant_id := tenant_id cfg;
               cred_client_id := client_id cfg;
               cred_client_secret := client_secret cfg |} in
          Ok {| _config := cfg;
                _credential := credential;
                _client := {| credentials := credential |} |}
      end
  end.

(** [for x in l: s = body x s], in the monad. *)
Fixpoint for_each {A S} (l : list A) (body : A -> S -> M S) (s : S) : M S :=
  match l with
  | [] => ret s
  | x :: l' => s' <- body x s ;; for_each l' body s'
  end.

(** [bytes | str]. *)
Inductive content :=
| Bytes (b : list byte)
| Str (s : string).

Section Provider.

Variable svc : Service.
Variable self : M365Provider.

(** *** Users and directory *)

Definition user_of (user : GraphUser) : User :=
  {| user_id := Some (Py.or_str (u_id user) "");
     user_display_name := Some (Py.or_str (u_display_name user) "");
     user_email := Py.or_else (u_mail user) (u_user_principal_name user);
     user_department := u_department user |}.

Definition list_users (limit : Z) : M (list User) :=
  result <- await (UsersGet limit) (users_get svc limit) ;;
  result <- attr result ;;
  ret (map user_of (Py.or_nil (value result))).

Definition get_user (user_id : string) : M User :=
  user <- await (UserGet user_id) (user_get svc user_id) ;;
  match user with
  | None => raise (ValueError [FLit "User not found: "; FStr user_id])
  | Some user => ret (user_of user)
  end.

(** *** Channels and messaging *)

(** Lines 176-182. *)
Definition channel_of_team (team : Group) (ch : GraphChannel) : Channel :=
  {| channel_id := Some (Py.or_str (c_id ch) "");
     channel_name := Some (Py.or_str (c_display_name ch) "");
     channel_description := c_description ch;
     channel_team_id := g_id team;
     channel_team_name := g_display_name team |}.

(** Lines 168-185: the body of the loop over the teams. *)
Definition team_channels (team : Group) (all_channels : list Channel)
  : M (list Channel) :=
  try_except
    (if negb (Py.truthy (g_id team)) then ret all_channels
     else
       let team_id := Py.default (g_id team) "" in
       channels <- await (TeamChannelsGet team_id)
                         (team_channels_get svc team_id) ;;
       channels <- attr channels ;;
       ret (all_channels ++
            map (channel_of_team team) (Py.or_nil (value channels))))
    (ret all_channels).

Definition list_channels (team_id : option string) : M (list Channel) :=
  if Py.truthy team_id then
    let tid := Py.default team_id "" in
    result <- await (TeamChannelsGet tid) (team_channels_get svc tid) ;;
    result <- attr result ;;
    ret (map (fun ch =>
                {| channel_id := Some (Py.or_str (c_id ch) "");
                   channel_name := Some (Py.or_str (c_display_name ch) "");
                   channel_description := c_description ch;
                   channel_team_id := team_id;
                   channel_team_name := Channel_default_team_name |})
             (Py.or_nil (value result)))
  else
    teams <- await GroupsGet (groups_get svc) ;;
    teams <- attr teams ;;
    for_each (firstn 5 (Py.or_nil (value teams))) team_channels [].

(** Lines 207-209. *)
Definition sender_of (msg : ChatMessage) : string :=
  match m_from msg with
  | Some from_ =>
      match is_user from_ with
      | Some user => Py.or_str (i_display_name user) "Unknown"
      | None => "Unknown"
      end
  | None => "Unknown"
  end.

(** Lines 212-220. *)
Definition message_of (channel_id : string) (msg : ChatMessage) : Message :=
  {| message_id := Some (Py.or_str (m_id msg) "");
     message_content :=
       match m_body msg with
       | Some body => b_content body
       | None => Some ""
       end;
     message_sender := Some (sender_of msg);
     message_timestamp :=
       match m_created_date_time msg with
       | Some t => Some (dt_str t)
       | None => Some ""
       end;
     message_channel_id := Some channel_id |}.

Definition get_messages (channel_id : string) (limit : Z)
    (team_id : option string) : M (list Message) :=
  if negb (Py.truthy team_id) then
    raise (ValueError [FLit "team_id is required for M365 channel messages"])
  else
    let tid := Py.default team_id "" in
    result <- await (ChannelMessagesGet tid channel_id)
                    (channel_messages_get svc tid channel_id) ;;
    result <- attr result ;;
    ret (map (message_of channel_id)
             (Py.slice_to limit (Py.or_nil (value result)))).

(** Lines 241-248. *)
Definition payload_of (message : string) (title : option string) : json :=
  if Py.truthy title then
    let t := Py.default title "" in
    JObj [("@type", JStr "MessageCard");
          ("summary", JStr t);
          ("sections",
           JArr [JObj [("activityTitle", JStr t); ("text", JStr message)]])]
  else JObj [("text", JStr message)].

Definition post_message (channel_name message : string)
    (title : option string) : M bool :=
  let webhook_url := Py.get channel_name (webhooks (_config self)) in
  if negb (Py.truthy webhook_url) then
    let available := Py.keys (webhooks (_config self)) in
    raise (ValueError [FLit "No webhook configured for channel '";
                       FStr channel_name;
                       FLit "'. Available channels: ";
                       FList available])
  else
    let url := Py.default webhook_url "" in
    let payload := payload_of message title in
    status_code <- await (HttpPost url payload) (http_post svc url payload) ;;
    ret (status_code =? 200)%Z.

(** *** Documents *)

(** [folder_path and folder_path != "root"]. *)
Definition names_folder (folder_path : option string) : bool :=
  Py.truthy folder_path
  && negb (String.eqb (Py.default folder_path "") "root").

Definition document_of (folder_path : option string) (item : DriveItem)
  : Document :=
  {| document_id := Some (Py.or_str (d_id item) "");
     document_name := Some (Py.or_str (d_name item) "");
     document_path := Some (Py.or_str folder_path "/");
     document_web_url := d_web_url item;
     document_size := d_size item;
     document_is_folder :=
       match d_folder item with Some _ => true | None => false end |}.

(** Lines 274-295, once the site is known: both branches read [root]
    from the builder of the site's drive before they ask for children. *)
Definition list_site_documents (folder_path : option string)
    (site_id : string) : M (list Document) :=
  result <-
    (if names_folder folder_path then
       let p := Py.default folder_path "" in
       _ <- site_drive_attr site_id "root" ;;
       await (DrivePathChildrenGet site_id p)
             (drive_path_children_get svc site_id p)
     else
       _ <- site_drive_attr site_id "root" ;;
       await (DriveRootChildrenGet site_id)
             (drive_root_children_get svc site_id)) ;;
  result <- attr result ;;
  ret (map (document_of folder_path) (Py.or_nil (value result))).

Definition list_documents (folder_path site_id : option string)
  : M (list Document) :=
  if negb (Py.truthy site_id) then
    sites <- await SitesGet (sites_get svc) ;;
    match sites with
    | None => ret []
    | Some sites =>
        match value sites with
        | None | Some [] => ret []
        | Some (first_site :: _) =>
            if negb (Py.truthy (s_id first_site)) then ret []
            else list_site_documents folder_path
                   (Py.default (s_id first_site) "")
        end
    end
  else list_site_documents folder_path (Py.default site_id "").

(** Lines 317-319. *)
Definition upload_path (name : string) (folder_path : option string)
  : string :=
  if names_folder folder_path
  then Py.default folder_path "" ++ "/" ++ name
  else name.

(** Lines 314-315. *)
Definition content_bytes (c : content) : list byte :=
  match c with
  | Str s => Py.encode_utf8 s
  | Bytes b => b
  end.

(** Lines 314-332, once the site is known: the bytes and the path are
    computed, then [root] is read from the builder of the site's drive. *)
Definition upload_to_site (name : string) (c : content)
    (folder_path : option string) (site_id : string) : M Document :=
  let c := content_bytes c in
  let path := upload_path name folder_path in
  _ <- site_drive_attr site_id "root" ;;
  result <- await (DriveContentPut site_id path c)
                  (drive_content_put svc site_id path c) ;;
  ret {| document_id :=
           match result with Some r => d_id r | None => Some "" end;
         document_name := Some name;
         document_path := Some path;
         document_web_url :=
           match result with Some r => d_web_url r | None => None end;
         document_size := Document_default_size;
         document_is_folder := Document_default_is_folder |}.

Definition upload_document (name : string) (c : content)
    (folder_path site_id : option string) : M Document :=
  if negb (Py.truthy site_id) then
    sites <- await SitesGet (sites_get svc) ;;
    match sites with
    | None => raise (ValueError [FLit "No SharePoint sites available"])
    | Some sites =>
        match value sites with
        | None | Some [] =>
            raise (ValueError [FLit "No SharePoint sites available"])
        | Some (first_site :: _) =>
            if negb (Py.truthy (s_id first_site)) then
              raise (ValueError [FLit "SharePoint site has no ID"])
            else upload_to_site name c folder_path
                   (Py.default (s_id first_site) "")
        end
    end
  else upload_to_site name c folder_path (Py.default site_id "").

(** *** Tasks *)

(** Line 374. *)
Definition status_of (task : PlannerTask) : string :=
  match t_percent_complete task with
  | Some p => if (p =? 100)%Z then "complete" else "in_progress"
  | None => "in_progress"
  end.

Definition task_of (task : PlannerTask) : Task :=
  {| task_id := Some (Py.or_str (t_id task) "");
     task_title := Some (Py.or_str (t_title task) "");
     task_status := Some (status_of task);
     task_due_date :=
       match t_due_date_time task with
       | Some t => Some (dt_str t)
       | None => None
       end |}.

Definition list_tasks (plan_id : option string) : M (list Task) :=
  if negb (Py.truthy plan_id) then ret []
  else
    let pid := Py.default plan_id "" in
    result <- await (PlanTasksGet pid) (plan_tasks_get svc pid) ;;
    result <- attr result ;;
    ret (map task_of (Py.or_nil (value result))).

End Provider.

(** ** Downloads and mail

    [download_document] and [send_email] name two more endpoints. Their
    requests extend the log of the calls above: a computation of [M] runs
    inside [XM] through [lift], its requests logged as [Graph] requests. *)

Inductive BodyType := BodyType_Text | BodyType_Html.

(** The [ItemBody] of an outgoing mail (content type and content). *)
Record MailBody := {
  mb_content_type : BodyType;
  mb_content : string
}.

Record EmailAddress := { address : string }.
Record Recipient := { email_address : EmailAddress }.

Record OutlookMessage := {
  om_subject : string;
  om_body : MailBody;
  om_to_recipients : list Recipient
}.

Record SendMailPostRequestBody := {
  message : OutlookMessage;
  save_to_sent_items : bool
}.

Inductive request :=
| Graph (c : call)
| DriveItemContentGet (site_id document_id : string)
| SendMailPost (user_id : option string) (body : SendMailPostRequestBody).

(** What the service answers to these two requests. *)
Record MailService := {
  drive_item_content_get : string -> string -> result (option (list byte));
  send_mail_post : option string -> SendMailPostRequestBody -> result unit
}.

Definition XM (A : Type) := list request -> result A * list request.

Definition xret {A} (a : A) : XM A := fun log => (Ok a, log).
Definition xraise {A} (e : exn) : XM A := fun log => (Raise e, log).
Definition xbind {A B} (m : XM A) (k : A -> XM B) : XM B :=
  fun log =>
    match m log with
    | (Ok a, log') => k a log'
    | (Raise e, log') => (Raise e, log')
    end.
Definition xawait {A} (r : request) (answer : result A) : XM A :=
  fun log => (answer, log ++ [r]).

(** A computation of [M], run from here: its requests go to the end of the
    log. *)
Definition lift {A} (m : M A) : XM A :=
  fun log => let (r, calls) := m [] in (r, log ++ map Graph calls).

Notation "x <-- m ;; k" := (xbind m (fun x => k))
  (at level 61, m at next level, right associativity) : m_scope.

Section Outlook.

Variable svc : Service.
Variable mail : MailService.



(** Lines 399-410. *)
Definition mail_request (to : list string) (subject body : string)
  : SendMailPostRequestBody :=
  {| message :=
       {| om_subject := subject;
          om_body := {| mb_content_type := BodyType_Text;
                        mb_content := body |};
          om_to_recipients :=
            map (fun addr => {| email_address := {| address := addr |} |})
                to |};
     save_to_sent_items := true |}.

Definition send_email (to : list string) (subject body : string)
    (from_user : option string) : XM bool :=
  from_user <--
    (if negb (Py.truthy from_user) then
       users <-- lift (list_users svc 1) ;;
       match users with
       | [] =>
           xraise (ValueError [FLit "No users available to send email from"])
       | user :: _ => xret (user_id user)
       end
     else xret from_user) ;;
  let request_body := mail_request to subject body in
  _ <-- xawait (SendMailPost from_user request_body)
               (send_mail_post mail from_user request_body) ;;
  xret true.

End Outlook.

(** ** Vocabulary of the statements *)

(** White space only. *)
Fixpoint blank (s : string) : bool :=
  match s with
  | "" => true
  | String a s' => Py.isspace a && blank s'
  end.

Definition first_char (s : string) : option ascii :=
  match s with
  | "" => None
  | String a _ => Some a
  end.

Fixpoint last_char (s : string) : option ascii :=
  match s with
  | "" => None
  | String a "" => Some a
  | String _ s' => last_char s'
  end.

Definition not_space (o : option ascii) : Prop :=
  match o with
  | Some a => Py.isspace a = false
  | None => True
  end.

(** The required settings, in the order the loader reads them. *)
Definition required_vars : list string :=
  ["M365_TENANT_ID"; "M365_CLIENT_ID"; "M365_CLIENT_SECRET"].

(** The webhook table as the specification words it: the entries are the
    comma-separated pieces that hold an equals sign; an entry's name is
    the trimmed text before its first equals sign and its URL the trimmed
    text after it; a name stands for the URL of its last entry. *)
Definition webhook_entries (s : string) : list string :=
  filter (Py.contains "=") (Py.split "," s).

Definition entry_name (e : string) : string := Py.strip (fst (Py.split1 "=" e)).
Definition entry_url (e : string) : string := Py.strip (snd (Py.split1 "=" e)).

Definition last_url (name : string) (entries : list string) : option string :=
  option_map entry_url
    (find (fun e => String.eqb name (entry_name e)) (rev entries)).

(** Environments used as examples. *)
Definition env_of (d : Py.dict string) : environ := fun k => Py.get k d.

Definition env_no_secret : environ :=
  env_of [("M365_TENANT_ID", "contoso"); ("M365_CLIENT_ID", "app")].

Definition env_full : environ :=
  env_of [("M365_TENANT_ID", "contoso"); ("M365_CLIENT_ID", "app");
          ("M365_CLIENT_SECRET", "s3cret");
          ("M365_TEAMS_WEBHOOKS", "general=https://a, alerts = https://b")].

Definition env_spaced_tenant : environ :=
  env_of [("M365_TENANT_ID", "my tenant"); ("M365_CLIENT_ID", "app");
          ("M365_CLIENT_SECRET", "s3cret")].

(** Two ways the credential's constructor may treat its values: accept
    them all, or refuse a tenant id that holds a space. *)
Definition accepting : credential_check := fun _ _ _ => None.

Definition refusing_spaces : credential_check :=
  fun tenant _ _ =>
    if Py.contains " " tenant
    then Some (ValueError [FLit "Invalid tenant ID provided."])
    else None.

(** The teams of a list that are asked for their channels, and what a
    team contributes to the aggregate: its channels when it has an id and
    the request succeeds, nothing otherwise. *)
Definition queried_ids (teams : list Group) : list string :=
  flat_map (fun team => if Py.truthy (g_id team)
                        then [Py.default (g_id team) ""] else [])
           teams.

Definition team_contribution (svc : Service) (team : Group) : list Channel :=
  if Py.truthy (g_id team) then
    match team_channels_get svc (Py.default (g_id team) "") with
    | Ok (Some channels) =>
        map (channel_of_team team) (Py.or_nil (value channels))
    | _ => []
    end
  else [].

(** A service that cannot be reached. *)
Definition unreachable {A} : result A := Raise (TransportError "unreachable").

Definition no_service : Service :=
  {| users_get := fun _ => unreachable;
     user_get := fun _ => unreachable;
     groups_get := unreachable;
     team_channels_get := fun _ => unreachable;
     channel_messages_get := fun _ _ => unreachable;
     sites_get := unreachable;
     drive_root_children_get := fun _ => unreachable;
     drive_path_children_get := fun _ _ => unreachable;
     drive_content_put := fun _ _ _ => unreachable;
     plan_tasks_get := fun _ => unreachable;
     http_post := fun _ _ => unreachable |}.

(** A tenant with seven teams; the channels of the second one cannot be
    read. *)
Definition team (id name : string) : Group :=
  {| g_id := Some id; g_display_name := Some name |}.

Definition seven_teams : list Group :=
  [team "t1" "One"; team "t2" "Two"; team "t3" "Three"; team "t4" "Four";
   team "t5" "Five"; team "t6" "Six"; team "t7" "Seven"].

Definition general_of (tid : string) : GraphChannel :=
  {| c_id := Some (tid ++ "-general")%string;
     c_display_name := Some "General";
     c_description := None |}.

Definition seven_teams_service : Service :=
  {| users_get := fun _ => unreachable;
     user_get := fun _ => unreachable;
     groups_get := Ok (Some {| value := Some seven_teams |});
     team_channels_get := fun tid =>
       if String.eqb tid "t2" then Raise (TransportError "403 Forbidden")
       else Ok (Some {| value := Some [general_of tid] |});
     channel_messages_get := fun _ _ => unreachable;
     sites_get := unreachable;
     drive_root_children_get := fun _ => unreachable;
     drive_path_children_get := fun _ _ => unreachable;
     drive_content_put := fun _ _ _ => unreachable;
     plan_tasks_get := fun _ => unreachable;
     http_post := fun _ _ => unreachable |}.

(** The two shapes of a webhook body. *)
Definition card_payload (title message : string) : json :=
  JObj [("@type", JStr "MessageCard");
        ("summary", JStr title);
        ("sections",
         JArr [JObj [("activityTitle", JStr title); ("text", JStr message)]])].

Definition text_payload (message : string) : json :=
  JObj [("text", JStr message)].

(** The body as the specification words it: a card when a title is given,
    the plain text when it is omitted. *)
Definition payload_as_stated (message : string) (title : option string)
  : json :=
  match title with
  | Some t => card_payload t message
  | None => text_payload message
  end.

(** A provider with a given webhook table, and a webhook endpoint that
    answers every POST with one status. *)
Definition provider_with (table : Py.dict string) : M365Provider :=
  let credential :=
    {| cred_tenant_id := "contoso"; cred_client_id := "app";
       cred_client_secret := "s3cret" |} in
  {| _config := {| tenant_id := "contoso"; client_id := "app";
                   client_secret := "s3cret"; webhooks := table |};
     _credential := credential;
     _client := {| credentials := credential |} |}.

Definition webhook_service (status : Z) : Service :=
  {| users_get := fun _ => unreachable;
     user_get := fun _ => unreachable;
     groups_get := unreachable;
     team_channels_get := fun _ => unreachable;
     channel_messages_get := fun _ _ => unreachable;
     sites_get := unreachable;
     drive_root_children_get := fun _ => unreachable;
     drive_path_children_get := fun _ _ => unreachable;
     drive_content_put := fun _ _ _ => unreachable;
     plan_tasks_get := fun _ => unreachable;
     http_post := fun _ _ => Ok status |}.

(** The display name of a message's author, when the message carries
    one. *)
Definition author_name (msg : ChatMessage) : option string :=
  match m_from msg with
  | Some from_ =>
      match is_user from_ with
      | Some user => i_display_name user
      | None => None
      end
  | None => None
  end.

(** A channel with two messages, the second one without an author. *)
Definition chat (id : string) (author : option string) (body : option ItemBody)
  : ChatMessage :=
  {| m_id := Some id;
     m_body := body;
     m_from := match author with
               | Some n => Some {| is_user := Some {| i_display_name := Some n |} |}
               | None => None
               end;
     m_created_date_time := None |}.

Definition two_messages : list ChatMessage :=
  [chat "m1" (Some "Ada") (Some {| b_content := Some "hello" |});
   chat "m2" None None].

Definition messages_service (msgs : list ChatMessage) : Service :=
  {| users_get := fun _ => unreachable;
     user_get := fun _ => unreachable;
     groups_get := unreachable;
     team_channels_get := fun _ => unreachable;
     channel_messages_get := fun _ _ => Ok (Some {| value := Some msgs |});
     sites_get := unreachable;
     drive_root_children_get := fun _ => unreachable;
     drive_path_children_get := fun _ _ => unreachable;
     drive_content_put := fun _ _ _ => unreachable;
     plan_tasks_get := fun _ => unreachable;
     http_post := fun _ _ => unreachable |}.

(** A plan with the given tasks. *)
Definition planner_task (id : string) (percent : option Z) : PlannerTask :=
  {| t_id := Some id; t_title := Some id;
     t_percent_complete := percent; t_due_date_time := None |}.

Definition five_tasks : list PlannerTask :=
  [planner_task "a" (Some 0%Z); planner_task "b" (Some 50%Z);
   planner_task "c" (Some 99%Z); planner_task "d" (Some 100%Z);
   planner_task "e" None].

Definition tasks_service (tasks : list PlannerTask) : Service :=
  {| users_get := fun _ => unreachable;
     user_get := fun _ => unreachable;
     groups_get := unreachable;
     team_channels_get := fun _ => unreachable;
     channel_messages_get := fun _ _ => unreachable;
     sites_get := unreachable;
     drive_root_children_get := fun _ => unreachable;
     drive_path_children_get := fun _ _ => unreachable;
     drive_content_put := fun _ _ _ => unreachable;
     plan_tasks_get := fun _ => Ok (Some {| value := Some tasks |});
     http_post := fun _ _ => unreachable |}.

(** The status of a task as the specification words it. *)
Definition status_as_stated (percent : option Z) : string :=
  match percent with
  | Some 100%Z => "complete"
  | _ => "in_progress"
  end.



(** A tenant's document library: its sites, and what the service would
    answer when asked for the children of a folder or sent an upload. *)
Definition documents_service (sites : option (collection Site))
    (children : list DriveItem) (uploaded : option DriveItem) : Service :=
  {| users_get := fun _ => unreachable;
     user_get := fun _ => unreachable;
     groups_get := unreachable;
     team_channels_get := fun _ => unreachable;
     channel_messages_get := fun _ _ => unreachable;
     sites_get := Ok sites;
     drive_root_children_get := fun _ => Ok (Some {| value := Some children |});
     drive_path_children_get :=
       fun _ _ => Ok (Some {| value := Some children |});
     drive_content_put := fun _ _ _ => Ok uploaded;
     plan_tasks_get := fun _ => unreachable;
     http_post := fun _ _ => unreachable |}.


(** A message whose body is there and has no content. *)
Definition bodiless_content : ChatMessage :=
  chat "m1" (Some "Ada") (Some {| b_content := None |}).

(** A text that neither starts nor ends with white space. *)
Definition trimmed (x : string) : Prop :=
  not_space (first_char x) /\ not_space (last_char x).

(** The distinct elements of a list, in the order of their first
    occurrence; [seen] holds the elements met so far. *)
Fixpoint first_occurrences (seen l : list string) : list string :=
  match l with
  | [] => []
  | x :: t =>
      if in_dec string_dec x seen then first_occurrences seen t
      else x :: first_occurrences (x :: seen) t
  end.

(** The text of a webhook table in the format the loader reads (line 60):
    [name1=url1,name2=url2]. *)
Definition format_entry (kv : string * string) : string :=
  (fst kv ++ "=" ++ snd kv)%string.

Definition format_webhooks (d : Py.dict string) : string :=
  Py.join "," (map format_entry d).

(** A table that the format can carry: distinct names, no comma anywhere,
    no equals sign in a name, names and URLs already stripped. *)
Definition entry_ok (kv : string * string) : Prop :=
  Py.contains "," (fst kv) = false
  /\ Py.contains "=" (fst kv) = false
  /\ Py.contains "," (snd kv) = false
  /\ Py.strip (fst kv) = fst kv
  /\ Py.strip (snd kv) = snd kv.

Definition table_ok (d : Py.dict string) : Prop :=
  NoDup (Py.keys d) /\ Forall entry_ok d.

(** A directory with the given users. *)
Definition graph_user (id mail upn : option string) : GraphUser :=
  {| u_id := id; u_display_name := None; u_user_principal_name := upn;
     u_mail := mail; u_department := None |}.

Definition three_users : list GraphUser :=
  [graph_user (Some "1") (Some "ada@contoso.com") (Some "ada@contoso.onmicrosoft.com");
   graph_user (Some "2") None (Some "bob@contoso.onmicrosoft.com");
   graph_user None (Some "") None].

Definition users_service (users : list GraphUser) : Service :=
  {| users_get := fun _ => Ok (Some {| value := Some users |});
     user_get := fun id =>
       Ok (find (fun u => match u_id u with
                          | Some i => String.eqb i id
                          | None => false
                          end) users);
     groups_get := unreachable;
     team_channels_get := fun _ => unreachable;
     channel_messages_get := fun _ _ => unreachable;
     sites_get := unreachable;
     drive_root_children_get := fun _ => unreachable;
     drive_path_children_get := fun _ _ => unreachable;
     drive_content_put := fun _ _ _ => unreachable;
     plan_tasks_get := fun _ => unreachable;
     http_post := fun _ _ => unreachable |}.

(** A tenant whose sites cannot serve a default: no answer, no list, an
    empty list, or a first site without id. *)
Definition no_default_site (svc : Service) : Prop :=
  sites_get svc = Ok None
  \/ exists sites,
       sites_get svc = Ok (Some sites)
       /\ (value sites = None \/ value sites = Some []).

Definition first_site_without_id (svc : Service) : Prop :=
  exists sites first rest,
    sites_get svc = Ok (Some sites)
    /\ value sites = Some (first :: rest)
    /\ (s_id first = None \/ s_id first = Some "").

(** How [send_email] comes to its sender: the one it is given, or else the
    id of the first user of the directory. [prefix] is the request this
    costs. *)
Definition sender_resolution (svc : Service) (from_user sender : option string)
    (prefix : list request) : Prop :=
  (exists u, from_user = Some u /\ u <> "" /\ sender = Some u /\ prefix = [])
  \/ ((from_user = None \/ from_user = Some "")
      /\ prefix = [Graph (UsersGet 1)]
      /\ exists answer first rest,
           users_get svc 1 = Ok (Some answer)
           /\ Py.or_nil (value answer) = first :: rest
           /\ sender = Some (Py.or_str (u_id first) "")).

(** A mail endpoint that accepts every mail, and a drive that serves one
    content for every item. *)
Definition mailbox_service (content : option (list byte)) : MailService :=
  {| drive_item_content_get := fun _ _ => Ok content;
     send_mail_post := fun _ _ => Ok tt |}.

Definition one_site (id : option string) : option (collection Site) :=
  Some {| value := Some [{| s_id := id |}] |}.

(** ** Facts about the Python primitives *)

Module PyFacts.

Lemma truthy_true (o : option string) :
  Py.truthy o = true <-> exists s, o = Some s /\ s <> "".
Proof.
  split.
  - destruct o as [[|a s]|]; simpl; intro H; try discriminate.
    exists (String a s); split; [reflexivity | discriminate].
  - intros (s & -> & Hs). destruct s; [contradiction | reflexivity].
Qed.

Lemma truthy_false (o : option string) :
  Py.truthy o = false <-> o = None \/ o = Some "".
Proof.
  split.
  - destruct o as [[|a s]|]; simpl; intro H; try discriminate; auto.
  - intros [-> | ->]; reflexivity.
Qed.

Lemma or_str_truthy (o : option string) (d : string) :
  Py.or_str o d = if Py.truthy o then Py.default o "" else d.
Proof. destruct o as [[|a s]|]; reflexivity. Qed.

(** [split] and [join] are inverse, and no piece holds the separator. *)
Lemma split_nonempty (c : ascii) (s : string) : Py.split c s <> [].
Proof.
  destruct s as [|a s]; simpl; [discriminate|].
  destruct (Ascii.eqb a c); [discriminate|].
  destruct (Py.split c s); discriminate.
Qed.

Lemma join_cons (sep x : string) (l : list string) :
  l <> [] -> Py.join sep (x :: l) = (x ++ sep ++ Py.join sep l)%string.
Proof. destruct l; [contradiction | reflexivity]. Qed.

Lemma join_split (c : ascii) (s : string) :
  Py.join (String c "") (Py.split c s) = s.
Proof.
  induction s as [|a s IH]; [reflexivity|].
  simpl Py.split. destruct (Ascii.eqb a c) eqn:E.
  - apply Ascii.eqb_eq in E. subst a.
    rewrite join_cons by apply split_nonempty.
    simpl. now rewrite IH.
  - pose proof (split_nonempty c s) as Hne.
    destruct (Py.split c s) as [|h t]; [contradiction|].
    destruct t as [|h' t].
    + simpl in *. now rewrite IH.
    + rewrite join_cons by discriminate.
      rewrite join_cons in IH by discriminate.
      cbn [append] in IH |- *. f_equal. exact IH.
Qed.

Lemma split_pieces (c : ascii) (s : string) :
  Forall (fun e => Py.contains c e = false) (Py.split c s).
Proof.
  induction s as [|a s IH]; simpl.
  - constructor; [reflexivity | constructor].
  - destruct (Ascii.eqb a c) eqn:E.
    + constructor; [reflexivity | exact IH].
    + destruct (Py.split c s) as [|h t].
      * constructor; [simpl; now rewrite E | constructor].
      * inversion IH; subst. constructor; [simpl; now rewrite E | assumption].
Qed.

(** [split1] cuts at the first separator. *)
Lemma split1_cut (c : ascii) (s : string) :
  Py.contains c s = true ->
  s = (fst (Py.split1 c s) ++ String c (snd (Py.split1 c s)))%string
  /\ Py.contains c (fst (Py.split1 c s)) = false.
Proof.
  induction s as [|a s IH]; simpl; [discriminate|].
  destruct (Ascii.eqb a c) eqn:E; simpl.
  - intros _. apply Ascii.eqb_eq in E. subst a. split; reflexivity.
  - intro H. destruct (IH H) as [IH1 IH2].
    destruct (Py.split1 c s) as [h t]; simpl in *.
    rewrite E. split; [now rewrite <- IH1 | exact IH2].
Qed.

Lemma lstrip_cut (s : string) :
  exists l, s = (l ++ Py.lstrip s)%string /\ blank l = true
            /\ not_space (first_char (Py.lstrip s)).
Proof.
  induction s as [|a s (l & Hs & Hl & Hf)].
  - exists "". repeat split.
  - simpl. destruct (Py.isspace a) eqn:E.
    + exists (String a l). simpl. rewrite E, Hl, <- Hs. repeat split. exact Hf.
    + exists "". simpl. repeat split. exact E.
Qed.

Lemma rstrip_cut (s : string) :
  exists r, s = (Py.rstrip s ++ r)%string /\ blank r = true
            /\ not_space (last_char (Py.rstrip s))
            /\ first_char (Py.rstrip s) =
               (if blank s then None else first_char s).
Proof.
  induction s as [|a s (r & Hs & Hr & Hf & Hc)].
  - exists "". repeat split.
  - simpl. destruct (Py.rstrip s) as [|b t] eqn:E.
    + simpl in Hs. subst r. destruct (Py.isspace a) eqn:Ea.
      * exists (String a s). simpl. rewrite Ea, Hr. repeat split.
      * exists s. simpl. rewrite Hr. repeat split. exact Ea.
    + exists r. cbn [append] in Hs |- *. rewrite <- Hs.
      split; [reflexivity|]. split; [exact Hr|]. split; [exact Hf|].
      simpl in Hc |- *. destruct (Py.isspace a); simpl; [|reflexivity].
      destruct (blank s); [discriminate | reflexivity].
Qed.

(** [strip] removes a blank prefix and a blank suffix and leaves a text
    that neither starts nor ends with white space. *)
Lemma strip_cut (s : string) :
  exists l r, s = (l ++ Py.strip s ++ r)%string
              /\ blank l = true /\ blank r = true
              /\ not_space (first_char (Py.strip s))
              /\ not_space (last_char (Py.strip s)).
Proof.
  unfold Py.strip.
  destruct (lstrip_cut s) as (l & Hs & Hl & Hf).
  destruct (rstrip_cut (Py.lstrip s)) as (r & Hs' & Hr & Hlast & Hfirst).
  exists l, r. repeat split; try assumption.
  - now rewrite <- Hs'.
  - rewrite Hfirst. destruct (blank (Py.lstrip s)); [exact I | exact Hf].
Qed.

Lemma get_set {V} (k k' : string) (v : V) (d : Py.dict V) :
  Py.get k (Py.set k' v d) = if String.eqb k k' then Some v else Py.get k d.
Proof.
  induction d as [|[k0 v0] d IH]; simpl.
  - reflexivity.
  - destruct (String.eqb k' k0) eqn:E0; simpl.
    + apply String.eqb_eq in E0. subst k0.
      destruct (String.eqb k k'); reflexivity.
    + destruct (String.eqb k k0) eqn:E1.
      * apply String.eqb_eq in E1. subst k0.
        rewrite String.eqb_sym, E0. reflexivity.
      * exact IH.
Qed.

Lemma keys_set {V} (k : string) (v : V) (d : Py.dict V) :
  Py.keys (Py.set k v d) =
  if in_dec string_dec k (Py.keys d) then Py.keys d else Py.keys d ++ [k].
Proof.
  unfold Py.keys. induction d as [|[k0 v0] d IH]; simpl.
  - reflexivity.
  - destruct (String.eqb k k0) eqn:E; simpl.
    + apply String.eqb_eq in E. subst k0.
      destruct (string_dec k k); [reflexivity | contradiction].
    + apply String.eqb_neq in E. rewrite IH.
      destruct (string_dec k0 k); [congruence|].
      destruct (in_dec string_dec k (map fst d)); reflexivity.
Qed.

Lemma keys_set_NoDup {V} (k : string) (v : V) (d : Py.dict V) :
  NoDup (Py.keys d) -> NoDup (Py.keys (Py.set k v d)).
Proof.
  intro H. rewrite keys_set.
  destruct (in_dec string_dec k (Py.keys d)) as [|Hn]; [exact H|].
  apply NoDup_app; [exact H | repeat constructor; intros [] | ].
  intros x Hx [<- | []]. contradiction.
Qed.

Lemma get_keys {V} (k : string) (d : Py.dict V) :
  Py.get k d = None <-> ~ In k (Py.keys d).
Proof.
  unfold Py.keys. induction d as [|[k0 v0] d IH]; simpl.
  - tauto.
  - destruct (String.eqb k k0) eqn:E.
    + apply String.eqb_eq in E. subst. split; [discriminate | tauto].
    + apply String.eqb_neq in E. rewrite IH. intuition congruence.
Qed.

Lemma find_app {A} (f : A -> bool) (l1 l2 : list A) :
  find f (l1 ++ l2) =
  match find f l1 with Some x => Some x | None => find f l2 end.
Proof.
  induction l1 as [|x l1 IH]; simpl; [reflexivity|].
  destruct (f x); [reflexivity | exact IH].
Qed.

End PyFacts.

(** ** Configuration loader: properties *)

Module Config.

Import PyFacts.

(** With the three required settings present and non-empty the loader
    succeeds and keeps them. *)
Lemma from_env_ok (env : environ) (t c s : string) :
  env "M365_TENANT_ID" = Some t -> t <> "" ->
  env "M365_CLIENT_ID" = Some c -> c <> "" ->
  env "M365_CLIENT_SECRET" = Some s -> s <> "" ->
  from_env env =
  Ok {| tenant_id := t; client_id := c; client_secret := s;
        webhooks := parse_webhooks (Py.default (env "M365_TEAMS_WEBHOOKS") "") |}.
Proof.
  intros Ht Ht' Hc Hc' Hs Hs'. unfold from_env. rewrite Ht, Hc, Hs.
  destruct t; [contradiction|]. destruct c; [contradiction|].
  destruct s; [contradiction|]. reflexivity.
Qed.

(** C3. When at least one of tenant id, client id and client secret is
    absent or empty in the environment, loading fails with the
    [ValueError] of the loader (the specification's ConfigurationError),
    whose message names exactly the missing settings, all of them, in the
    loader's order; with only the client secret missing it names exactly
    [M365_CLIENT_SECRET]. *)
Theorem from_env_names_missing (env : environ) :
  (exists k, In k required_vars /\ Py.truthy (env k) = false) ->
  let missing := filter (fun k => negb (Py.truthy (env k))) required_vars in
  from_env env =
    Raise (ValueError [FLit "Missing required environment variables: ";
                       FStr (Py.join ", " missing)])
  /\ (forall k, In k missing <->
                 In k required_vars /\ (env k = None \/ env k = Some ""))
  /\ (Py.truthy (env "M365_TENANT_ID") = true ->
      Py.truthy (env "M365_CLIENT_ID") = true ->
      missing = ["M365_CLIENT_SECRET"]).
Proof.
  intros (k & Hk & Hf) missing. subst missing. split; [|split].
  - unfold from_env, missing_vars, required_vars in *. simpl in Hk.
    destruct Hk as [<- | [<- | [<- | []]]]; simpl; rewrite Hf; simpl;
      repeat match goal with
             | |- context [Py.truthy (env ?x)] =>
                 destruct (Py.truthy (env x)); simpl
             end; reflexivity.
  - intro k'. rewrite filter_In, negb_true_iff, truthy_false. reflexivity.
  - intros Ht Hc. unfold required_vars in *. simpl. rewrite Ht, Hc. simpl.
    simpl in Hk. destruct Hk as [<- | [<- | [<- | []]]]; try congruence.
    now rewrite Hf.
Qed.

Lemma from_env_names_missing_witness :
  from_env env_no_secret =
    Raise (ValueError [FLit "Missing required environment variables: ";
                       FStr "M365_CLIENT_SECRET"]).
Proof.
  refine (proj1 (from_env_names_missing env_no_secret _)).
  exists "M365_CLIENT_SECRET". split; [simpl; tauto | reflexivity].
Defined.

(** One round of the loop of lines 64-67. *)
Lemma webhook_round (webhooks : Py.dict string) (pair : string) :
  (if Py.contains "=" pair then
     let (n, u) := Py.split1 "=" pair in
     Py.set (Py.strip n) (Py.strip u) webhooks
   else webhooks) =
  if Py.contains "=" pair
  then Py.set (entry_name pair) (entry_url pair) webhooks
  else webhooks.
Proof.
  unfold entry_name, entry_url. now destruct (Py.split1 "=" pair).
Qed.

Lemma get_fold_webhooks (name : string) (l : list string) (d : Py.dict string) :
  Py.get name
    (fold_left
       (fun webhooks pair =>
          if Py.contains "=" pair then
            let (n, u) := Py.split1 "=" pair in
            Py.set (Py.strip n) (Py.strip u) webhooks
          else webhooks) l d) =
  match last_url name (filter (Py.contains "=") l) with
  | Some u => Some u
  | None => Py.get name d
  end.
Proof.
  revert d. induction l as [|e l IH]; intro d; [reflexivity|].
  cbn [fold_left filter]. rewrite IH, webhook_round. unfold last_url.
  destruct (Py.contains "=" e) eqn:E.
  - cbn [rev]. rewrite find_app. cbn [find].
    destruct (find _ (rev (filter _ l))) as [e'|]; [reflexivity|].
    rewrite get_set.
    destruct (String.eqb name (entry_name e)); reflexivity.
  - destruct (find _ (rev (filter _ l))); reflexivity.
Qed.

Lemma keys_fold_webhooks (l : list string) (d : Py.dict string) :
  NoDup (Py.keys d) ->
  NoDup (Py.keys
    (fold_left
       (fun webhooks pair =>
          if Py.contains "=" pair then
            let (n, u) := Py.split1 "=" pair in
            Py.set (Py.strip n) (Py.strip u) webhooks
          else webhooks) l d)).
Proof.
  revert d. induction l as [|e l IH]; intros d Hd; simpl; [exact Hd|].
  apply IH. destruct (Py.contains "=" e); [|exact Hd].
  destruct (Py.split1 "=" e). now apply keys_set_NoDup.
Qed.

(** C4. For every webhook string: the entries are its comma-separated
    pieces; a piece without an equals sign is skipped; every other piece is
    cut at its first equals sign into a name and a URL, both trimmed of
    white space; a name is bound to the URL of its last entry, and occurs
    once in the table. The two strings of the specification parse to the
    tables it gives. *)
Theorem parse_webhooks_last_wins (s : string) :
  (Py.join "," (Py.split "," s) = s
   /\ Forall (fun e => Py.contains "," e = false) (Py.split "," s))
  /\ (forall e, In e (webhook_entries s) <->
                In e (Py.split "," s) /\ Py.contains "=" e = true)
  /\ (forall e, In e (webhook_entries s) ->
        exists n u l r l' r',
          e = (n ++ "=" ++ u)%string /\ Py.contains "=" n = false
          /\ n = (l ++ entry_name e ++ r)%string
          /\ u = (l' ++ entry_url e ++ r')%string
          /\ blank l = true /\ blank r = true
          /\ blank l' = true /\ blank r' = true
          /\ not_space (first_char (entry_name e))
          /\ not_space (last_char (entry_name e))
          /\ not_space (first_char (entry_url e))
          /\ not_space (last_char (entry_url e)))
  /\ (forall name,
        Py.get name (parse_webhooks s) = last_url name (webhook_entries s))
  /\ NoDup (Py.keys (parse_webhooks s))
  /\ parse_webhooks "general=https://a,alerts=https://b" =
       [("general", "https://a"); ("alerts", "https://b")]
  /\ parse_webhooks "general=https://a,general=https://c" =
       [("general", "https://c")].
Proof.
  split; [split; [apply join_split | apply split_pieces]|].
  split; [intro e; unfold webhook_entries; apply filter_In|].
  split.
  { intros e He. apply filter_In in He. destruct He as [_ He].
    destruct (split1_cut "=" e He) as [Hcut Hn].
    unfold entry_name, entry_url.
    destruct (strip_cut (fst (Py.split1 "=" e))) as (l & r & H1 & Hl & Hr & Hf & Hla).
    destruct (strip_cut (snd (Py.split1 "=" e))) as (l' & r' & H2 & Hl' & Hr' & Hf' & Hla').
    exists (fst (Py.split1 "=" e)), (snd (Py.split1 "=" e)), l, r, l', r'.
    repeat split; assumption. }
  split.
  { intro name. unfold parse_webhooks, webhook_entries.
    destruct (String.eqb s "") eqn:E.
    - apply String.eqb_eq in E. subst s. reflexivity.
    - rewrite get_fold_webhooks.
      destruct (last_url name _); reflexivity. }
  split.
  { unfold parse_webhooks. destruct (String.eqb s ""); [constructor|].
    apply keys_fold_webhooks. constructor. }
  split; reflexivity.
Qed.

End Config.

(** ** Provider construction *)

Module Construction.

(** C10. The constructor ignores its [config] argument: under one
    environment, two constructions with different arguments give equal
    providers, or fail alike. The configuration of the provider is the
    one [from_env] loads; a construction that fails does so with the
    error of [from_env], or else with the error of the credential's
    constructor on the values [from_env] loaded. *)
Theorem init_ignores_config (check : credential_check) (env : environ)
    (c1 c2 : option (Py.dict string)) :
  M365Provider_init check env c1 = M365Provider_init check env c2
  /\ match M365Provider_init check env c1 with
     | Ok p => from_env env = Ok (_config p)
     | Raise e =>
         from_env env = Raise e
         \/ exists cfg,
              from_env env = Ok cfg
              /\ check (tenant_id cfg) (client_id cfg) (client_secret cfg) =
                 Some e
     end.
Proof.
  unfold M365Provider_init. split; [reflexivity|].
  destruct (from_env env) as [cfg|e]; [|now left].
  destruct (check _ _ _) as [e|] eqn:E; [|reflexivity].
  right. now exists cfg.
Qed.

(** The constructor does build a provider, whatever argument it is given,
    when the credential's constructor accepts the values. *)
Lemma init_env_full (c : option (Py.dict string)) :
  exists p, M365Provider_init accepting env_full c = Ok p
            /\ webhooks (_config p) =
               [("general", "https://a"); ("alerts", "https://b")].
Proof. eexists. split; reflexivity. Qed.

End Construction.

(** ** Channels *)

Module Channels.

Import PyFacts.

Lemma team_channels_step (svc : Service) (team : Group)
    (acc : list Channel) (log : list call) :
  team_channels svc team acc log =
  (Ok (acc ++ team_contribution svc team),
   log ++ map TeamChannelsGet (queried_ids [team])).
Proof.
  unfold team_channels, team_contribution, queried_ids, try_except.
  cbn [flat_map]. destruct (Py.truthy (g_id team)); cbn.
  - destruct (team_channels_get svc _) as [[channels|]|e]; cbn;
      rewrite ?app_nil_r; reflexivity.
  - now rewrite !app_nil_r.
Qed.

Lemma queried_ids_cons (team : Group) (teams : list Group) :
  queried_ids (team :: teams) = queried_ids [team] ++ queried_ids teams.
Proof. unfold queried_ids. cbn [flat_map]. now rewrite app_nil_r. Qed.

Lemma for_each_teams (svc : Service) (teams : list Group)
    (acc : list Channel) (log : list call) :
  for_each teams (team_channels svc) acc log =
  (Ok (acc ++ flat_map (team_contribution svc) teams),
   log ++ map TeamChannelsGet (queried_ids teams)).
Proof.
  revert acc log. induction teams as [|team teams IH]; intros acc log.
  - cbn. now rewrite !app_nil_r.
  - cbn [for_each]. unfold bind at 1. rewrite team_channels_step, IH.
    rewrite (queried_ids_cons team teams), map_app, <- !app_assoc.
    reflexivity.
Qed.

Lemma queried_ids_length (teams : list Group) :
  length (queried_ids teams) <= length teams.
Proof.
  induction teams as [|team teams IH]; [apply Nat.le_refl|].
  rewrite queried_ids_cons, length_app. unfold queried_ids at 1.
  cbn [flat_map]. destruct (Py.truthy (g_id team)); cbn; lia.
Qed.

Lemma In_queried_ids (tid : string) (teams : list Group) :
  In tid (queried_ids teams) <->
  exists team, In team teams /\ g_id team = Some tid /\ tid <> "".
Proof.
  unfold queried_ids. rewrite in_flat_map. split.
  - intros (team & Hin & Hid). exists team. split; [exact Hin|].
    destruct (Py.truthy (g_id team)) eqn:E; [|destruct Hid].
    apply truthy_true in E. destruct E as (s & Hs & Hne).
    rewrite Hs in Hid |- *. cbn in Hid. destruct Hid as [<- | []]. now split.
  - intros (team & Hin & Hid & Hne). exists team. split; [exact Hin|].
    rewrite Hid. destruct tid; [contradiction | left; reflexivity].
Qed.

Lemma In_team_contribution (svc : Service) (team : Group) (c : Channel) :
  In c (team_contribution svc team) <->
  exists tid channels ch,
    g_id team = Some tid /\ tid <> ""
    /\ team_channels_get svc tid = Ok (Some channels)
    /\ In ch (Py.or_nil (value channels)) /\ c = channel_of_team team ch.
Proof.
  unfold team_contribution. split.
  - destruct (Py.truthy (g_id team)) eqn:E; [|intros []].
    apply truthy_true in E. destruct E as (tid & Hs & Hne). rewrite Hs. cbn.
    destruct (team_channels_get svc tid) as [[channels|]|e] eqn:G;
      try (intros []).
    rewrite in_map_iff. intros (ch & <- & Hch).
    exists tid, channels, ch. repeat split; assumption.
  - intros (tid & channels & ch & Hid & Hne & G & Hch & ->).
    rewrite Hid. destruct tid; [contradiction|]. cbn. rewrite G.
    now apply in_map.
Qed.

(** C1. With no team given, and once the list of teams has been read, the
    call succeeds whatever the teams answer: it asks for the channels of
    teams among the first five only (at most five requests), and returns,
    in order, the channels of every one of these teams that has an id and
    answers; a team whose request raises, or that answers nothing,
    contributes no channel and does not fail the call. *)
Theorem list_channels_best_effort (svc : Service) (teams : collection Group)
    (log : list call) :
  groups_get svc = Ok (Some teams) ->
  let first5 := firstn 5 (Py.or_nil (value teams)) in
  let channels := flat_map (team_contribution svc) first5 in
  list_channels svc None log =
    (Ok channels,
     log ++ GroupsGet :: map TeamChannelsGet (queried_ids first5))
  /\ length (queried_ids first5) <= 5
  /\ (forall tid, In tid (queried_ids first5) <->
        exists team, In team first5 /\ g_id team = Some tid /\ tid <> "")
  /\ (forall c, In c channels <->
        exists team tid answer ch,
          In team first5 /\ g_id team = Some tid /\ tid <> ""
          /\ team_channels_get svc tid = Ok (Some answer)
          /\ In ch (Py.or_nil (value answer))
          /\ c = channel_of_team team ch).
Proof.
  intros Hg first5 channels. split; [|split; [|split]].
  - unfold list_channels. cbn [Py.truthy]. unfold bind at 1, await at 1.
    rewrite Hg. unfold bind at 1. cbn [attr ret].
    fold first5. rewrite for_each_teams. cbn [app].
    rewrite <- app_assoc. reflexivity.
  - etransitivity; [apply queried_ids_length|].
    unfold first5. rewrite length_firstn. apply Nat.le_min_l.
  - intro tid. apply In_queried_ids.
  - intro c. unfold channels. rewrite in_flat_map. split.
    + intros (team & Hin & Hc). apply In_team_contribution in Hc.
      destruct Hc as (tid & answer & ch & H). exists team, tid, answer, ch.
      tauto.
    + intros (team & tid & answer & ch & Hin & H). exists team.
      split; [exact Hin|]. apply In_team_contribution.
      exists tid, answer, ch. tauto.
Qed.

Lemma list_channels_best_effort_witness :
  list_channels seven_teams_service None [] =
    (Ok [channel_of_team (team "t1" "One") (general_of "t1");
         channel_of_team (team "t3" "Three") (general_of "t3");
         channel_of_team (team "t4" "Four") (general_of "t4");
         channel_of_team (team "t5" "Five") (general_of "t5")],
     [GroupsGet; TeamChannelsGet "t1"; TeamChannelsGet "t2";
      TeamChannelsGet "t3"; TeamChannelsGet "t4"; TeamChannelsGet "t5"]).
Proof.
  exact (proj1 (list_channels_best_effort seven_teams_service
                  {| value := Some seven_teams |} [] eq_refl)).
Defined.

End Channels.

(** ** Webhook posting *)

Module Webhook.

Import PyFacts.

Lemma payload_of_cases (message : string) (title : option string) :
  (title = None \/ title = Some "" ->
   payload_of message title = text_payload message)
  /\ (forall t, title = Some t -> t <> "" ->
      payload_of message title = card_payload t message).
Proof.
  split.
  - intros [-> | ->]; reflexivity.
  - intros t -> Ht. destruct t; [contradiction | reflexivity].
Qed.

Lemma card_is_not_text (title message message' : string) :
  card_payload title message <> text_payload message'.
Proof. discriminate. Qed.

(** C2, as stated, fails: a channel whose entry in the webhook table is the
    empty URL has an entry, yet [post_message] raises and posts nothing
    (table [{"general": ""}], as parsed from ["general="]); and a title
    given as the empty string gets the plain body, not a card. *)
Lemma post_message_as_stated_counterexample :
  ~ (forall (svc : Service) (self : M365Provider)
            (channel_name message url : string) (title : option string)
            (log : list call),
        Py.get channel_name (webhooks (_config self)) = Some url ->
        snd (post_message svc self channel_name message title log) =
        log ++ [HttpPost url (payload_as_stated message title)]).
Proof.
  intro H.
  specialize (H (webhook_service 200) (provider_with (parse_webhooks "general="))
                "general" "hi" "" None [] eq_refl).
  discriminate H.
Qed.

(** C2, amended. If the channel has no entry in the webhook table, or its
    entry is the empty URL, the call raises the [ValueError] (the
    specification's NotFoundError) whose message lists every configured
    channel name, and posts nothing. Otherwise it POSTs once to the
    channel's URL: a card (type discriminator, summary, one section with
    activity title and text) when a non-empty title is given, the plain
    [{text: message}] body when the title is omitted or empty; and the
    result is [True] exactly when the status of the response is 200, and
    [False], not an error, for any other status. *)
Theorem post_message_spec (svc : Service) (self : M365Provider)
    (channel_name message : string) (title : option string)
    (log : list call) :
  let table := webhooks (_config self) in
  (Py.get channel_name table = None \/ Py.get channel_name table = Some "" ->
   post_message svc self channel_name message title log =
   (Raise (ValueError [FLit "No webhook configured for channel '";
                       FStr channel_name;
                       FLit "'. Available channels: ";
                       FList (Py.keys table)]),
    log))
  /\ (forall url, Py.get channel_name table = Some url -> url <> "" ->
      exists payload,
        (title = None \/ title = Some "" -> payload = text_payload message)
        /\ (forall t, title = Some t -> t <> "" ->
            payload = card_payload t message)
        /\ snd (post_message svc self channel_name message title log) =
           log ++ [HttpPost url payload]
        /\ (forall status, http_post svc url payload = Ok status ->
            fst (post_message svc self channel_name message title log) =
              Ok (status =? 200)%Z
            /\ ((status =? 200)%Z = true <-> status = 200%Z))
        /\ (forall e, http_post svc url payload = Raise e ->
            fst (post_message svc self channel_name message title log) =
              Raise e)).
Proof.
  intro table. unfold post_message. fold table. split.
  - intros [-> | ->]; reflexivity.
  - intros url -> Hne. destruct url as [|a url]; [contradiction|].
    exists (payload_of message title).
    destruct (payload_of_cases message title) as [Htext Hcard].
    split; [exact Htext|]. split; [exact Hcard|].
    cbn [Py.truthy negb Py.default]. unfold bind, await, ret.
    destruct (http_post svc _ _) as [st|e]; cbn [fst snd].
    + split; [reflexivity|]. split.
      * intros status [= ->]. split; [reflexivity | apply Z.eqb_eq].
      * discriminate.
    + split; [reflexivity|]. split; [discriminate|].
      now intros e' [= ->].
Qed.

Lemma post_message_spec_witness :
  post_message (webhook_service 204) (provider_with [("general", "https://a")])
               "missing" "hi" None [] =
  (Raise (ValueError [FLit "No webhook configured for channel '";
                      FStr "missing";
                      FLit "'. Available channels: ";
                      FList ["general"]]),
   [])
  /\ exists payload,
       payload = card_payload "Alert" "hi"
       /\ snd (post_message (webhook_service 204)
                 (provider_with [("general", "https://a")])
                 "general" "hi" (Some "Alert") []) =
          [HttpPost "https://a" payload]
       /\ fst (post_message (webhook_service 204)
                 (provider_with [("general", "https://a")])
                 "general" "hi" (Some "Alert") []) = Ok false.
Proof.
  split.
  - apply (proj1 (post_message_spec (webhook_service 204)
                    (provider_with [("general", "https://a")])
                    "missing" "hi" None [])).
    left; reflexivity.
  - destruct (proj2 (post_message_spec (webhook_service 204)
                       (provider_with [("general", "https://a")])
                       "general" "hi" (Some "Alert") [])
                    "https://a" eq_refl ltac:(discriminate))
      as (payload & _ & Hcard & Hlog & Hst & _).
    exists payload. split; [now apply Hcard|]. split; [exact Hlog|].
    exact (proj1 (Hst 204%Z eq_refl)).
Defined.

End Webhook.

(** ** Channel messages *)

Module Messages.

Import PyFacts.

Lemma slice_to_prefix {A} (n : Z) (l : list A) :
  exists rest, l = Py.slice_to n l ++ rest.
Proof.
  unfold Py.slice_to. destruct (0 <=? n)%Z;
    eexists; symmetry; apply firstn_skipn.
Qed.

Lemma slice_to_nonneg {A} (n : Z) (l : list A) :
  (0 <= n)%Z ->
  Py.slice_to n l = firstn (Z.to_nat n) l
  /\ (Z.of_nat (length (Py.slice_to n l)) <= n)%Z.
Proof.
  intro Hn. unfold Py.slice_to.
  destruct (0 <=? n)%Z eqn:E; [|apply Z.leb_gt in E; lia].
  split; [reflexivity|]. rewrite length_firstn. lia.
Qed.

Lemma sender_of_cases (msg : ChatMessage) :
  (forall n, author_name msg = Some n -> n <> "" -> sender_of msg = n)
  /\ (author_name msg = None \/ author_name msg = Some "" ->
      sender_of msg = "Unknown").
Proof.
  unfold sender_of, author_name.
  destruct (m_from msg) as [[[[[[|a n]|]]|]]|]; cbn; split;
    try (intros n' [= <-] Hn'; try contradiction; reflexivity);
    try (intros [H | H]; (discriminate H || reflexivity));
    try (intros n' [=]).
Qed.

(** C5, as stated, fails on a negative [limit]: the slice [[:limit]] then
    drops messages from the end, so [limit = -1] on a channel with two
    messages returns one message, which is not "at most [limit]". *)
Lemma get_messages_at_most_limit_counterexample :
  ~ (forall (svc : Service) (channel_id tid : string) (limit : Z)
            (log : list call) (msgs : list Message),
        fst (get_messages svc channel_id limit (Some tid) log) = Ok msgs ->
        (Z.of_nat (length msgs) <= limit)%Z).
Proof.
  intro H.
  specialize (H (messages_service two_messages) "c" "t" (-1)%Z [] _ eq_refl).
  cbn in H. lia.
Qed.

(** C5, amended. Without a team id the call raises the [ValueError] (the
    specification's InvalidArgumentError) before any request is made. With
    a team id, once the channel's messages have been read, the call
    returns the records of a prefix of the service's list, in the
    service's order: the first [limit] messages, hence at most [limit] of
    them, when [limit] is not negative. The sender of a record is the
    author's display name, or ["Unknown"] when the message carries no
    (or an empty) author name. *)
Theorem get_messages_spec (svc : Service) (channel_id : string) (limit : Z)
    (team_id : option string) (log : list call) :
  (team_id = None ->
   get_messages svc channel_id limit team_id log =
   (Raise (ValueError [FLit "team_id is required for M365 channel messages"]),
    log))
  /\ (forall tid answer,
        team_id = Some tid -> tid <> "" ->
        channel_messages_get svc tid channel_id = Ok (Some answer) ->
        exists kept rest,
          get_messages svc channel_id limit team_id log =
            (Ok (map (message_of channel_id) kept),
             log ++ [ChannelMessagesGet tid channel_id])
          /\ Py.or_nil (value answer) = kept ++ rest
          /\ ((0 <= limit)%Z ->
              kept = firstn (Z.to_nat limit) (Py.or_nil (value answer))
              /\ (Z.of_nat (length (map (message_of channel_id) kept))
                  <= limit)%Z))
  /\ (forall msg,
        exists sender,
          message_sender (message_of channel_id msg) = Some sender
          /\ (forall n, author_name msg = Some n -> n <> "" -> sender = n)
          /\ (author_name msg = None \/ author_name msg = Some "" ->
              sender = "Unknown")).
Proof.
  split; [|split].
  - intros ->. reflexivity.
  - intros tid answer -> Hne Hget. destruct tid as [|a tid]; [contradiction|].
    destruct (slice_to_prefix limit (Py.or_nil (value answer))) as [rest Hrest].
    exists (Py.slice_to limit (Py.or_nil (value answer))), rest.
    split; [|split].
    + unfold get_messages. cbn [Py.truthy negb Py.default].
      unfold bind, await. rewrite Hget. reflexivity.
    + exact Hrest.
    + intro Hl. rewrite length_map. now apply slice_to_nonneg.
  - intro msg. exists (sender_of msg). split; [reflexivity|].
    apply sender_of_cases.
Qed.

Lemma get_messages_spec_witness :
  get_messages (messages_service two_messages) "c" 1 None [] =
    (Raise (ValueError [FLit "team_id is required for M365 channel messages"]),
     [])
  /\ exists kept rest,
       get_messages (messages_service two_messages) "c" 1 (Some "t") [] =
         (Ok (map (message_of "c") kept), [ChannelMessagesGet "t" "c"])
       /\ two_messages = kept ++ rest
       /\ kept = firstn 1 two_messages.
Proof.
  pose proof (get_messages_spec (messages_service two_messages) "c" 1
                (Some "t") []) as (_ & H & _).
  split.
  - exact (proj1 (get_messages_spec (messages_service two_messages) "c" 1
                    None []) eq_refl).
  - destruct (H "t" {| value := Some two_messages |} eq_refl
                ltac:(discriminate) eq_refl)
      as (kept & rest & Hrun & Hsplit & Hlim).
    exists kept, rest. split; [exact Hrun|]. split; [exact Hsplit|].
    exact (proj1 (Hlim ltac:(lia))).
Defined.

End Messages.

(** ** Tasks *)

Module Tasks.

Lemma status_of_stated (task : PlannerTask) :
  status_of task = status_as_stated (t_percent_complete task).
Proof.
  unfold status_of, status_as_stated.
  destruct (t_percent_complete task) as [p|]; [|reflexivity].
  destruct (p =? 100)%Z eqn:E.
  - apply Z.eqb_eq in E. now subst p.
  - apply Z.eqb_neq in E.
    destruct p as [|q|q]; try reflexivity.
    do 7 (destruct q as [q|q|]; try reflexivity). contradiction.
Qed.

Lemma status_of_complete (task : PlannerTask) :
  (status_of task = "complete" <-> t_percent_complete task = Some 100%Z)
  /\ (status_of task = "in_progress" <->
      t_percent_complete task <> Some 100%Z).
Proof.
  unfold status_of. destruct (t_percent_complete task) as [p|].
  - destruct (p =? 100)%Z eqn:E.
    + apply Z.eqb_eq in E. subst p. split; split; try reflexivity;
        intro H; try discriminate H. now contradiction H.
    + apply Z.eqb_neq in E. split; split; try discriminate; try reflexivity.
      * intros [= ->]. contradiction.
      * intros _ [= ->]. contradiction.
  - split; split; try discriminate; reflexivity.
Qed.

(** C6. Without a plan id the call returns the empty list at once, with
    no request made. With a plan id, once the plan's tasks have been read,
    it returns one record per task of the plan. Whatever list the call
    returns is the empty one of a missing plan id, or else stands, record
    by record and in order, against the tasks the service answered with:
    the status of a record is ["complete"] exactly when the
    percent-complete of its task is 100 and ["in_progress"] for every
    other value (0, 50, 99, or none). *)
Theorem list_tasks_spec (svc : Service) (plan_id : option string)
    (log : list call) :
  (plan_id = None -> list_tasks svc plan_id log = (Ok [], log))
  /\ (forall pid answer,
        plan_id = Some pid -> pid <> "" ->
        plan_tasks_get svc pid = Ok (Some answer) ->
        list_tasks svc plan_id log =
          (Ok (map task_of (Py.or_nil (value answer))),
           log ++ [PlanTasksGet pid]))
  /\ (forall tasks,
        fst (list_tasks svc plan_id log) = Ok tasks ->
        (Py.truthy plan_id = false /\ tasks = [])
        \/ exists pid answer,
             plan_id = Some pid
             /\ plan_tasks_get svc pid = Ok (Some answer)
             /\ Forall2
                  (fun task record =>
                     (task_status record = Some "complete" <->
                      t_percent_complete task = Some 100%Z)
                     /\ (task_status record = Some "in_progress" <->
                         t_percent_complete task <> Some 100%Z))
                  (Py.or_nil (value answer)) tasks)
  /\ status_as_stated (Some 0%Z) = "in_progress"
  /\ status_as_stated (Some 50%Z) = "in_progress"
  /\ status_as_stated (Some 99%Z) = "in_progress"
  /\ status_as_stated (Some 100%Z) = "complete"
  /\ (forall task, status_of task = status_as_stated (t_percent_complete task)).
Proof.
  split; [|split; [|split]].
  - intros ->. reflexivity.
  - intros pid answer -> Hne Hget. destruct pid; [contradiction|].
    unfold list_tasks. cbn [Py.truthy negb Py.default].
    unfold bind, await. rewrite Hget. reflexivity.
  - intros tasks. unfold list_tasks.
    destruct (Py.truthy plan_id) eqn:Ht; cbn [negb].
    + destruct plan_id as [pid|]; [|discriminate Ht]. cbn [Py.default].
      unfold bind, await, attr.
      destruct (plan_tasks_get svc pid) as [[answer|]|e] eqn:Hget; cbn;
        try discriminate.
      intros [= <-]. right. exists pid, answer.
      split; [reflexivity|]. split; [exact Hget|].
      induction (Py.or_nil (value answer)) as [|task l IH]; cbn [map];
        constructor; [|exact IH].
      change (task_status (task_of task)) with (Some (status_of task)).
      destruct (status_of_complete task) as [[H1 H2] [H3 H4]].
      split; split; intro H.
      * apply H1. now injection H.
      * now rewrite (H2 H).
      * apply H3. now injection H.
      * now rewrite (H4 H).
    + intros [= <-]. now left.
  - repeat split; try reflexivity. apply status_of_stated.
Qed.

Lemma list_tasks_spec_witness :
  list_tasks (tasks_service five_tasks) None [] = (Ok [], [])
  /\ list_tasks (tasks_service five_tasks) (Some "p") [] =
       (Ok (map task_of five_tasks), [PlanTasksGet "p"])
  /\ map task_status (map task_of five_tasks) =
       [Some "in_progress"; Some "in_progress"; Some "in_progress";
        Some "complete"; Some "in_progress"]
  /\ ((Py.truthy (Some "p") = false /\ map task_of five_tasks = [])
      \/ exists pid answer,
           Some "p" = Some pid
           /\ plan_tasks_get (tasks_service five_tasks) pid = Ok (Some answer)
           /\ Forall2
                (fun task record =>
                   (task_status record = Some "complete" <->
                    t_percent_complete task = Some 100%Z)
                   /\ (task_status record = Some "in_progress" <->
                       t_percent_complete task <> Some 100%Z))
                (Py.or_nil (value answer)) (map task_of five_tasks)).
Proof.
  split; [|split; [|split]].
  - exact (proj1 (list_tasks_spec (tasks_service five_tasks) None []) eq_refl).
  - exact (proj1 (proj2 (list_tasks_spec (tasks_service five_tasks)
                           (Some "p") []))
             "p" {| value := Some five_tasks |} eq_refl
             ltac:(discriminate) eq_refl).
  - reflexivity.
  - exact (proj1 (proj2 (proj2 (list_tasks_spec (tasks_service five_tasks)
                                  (Some "p") [])))
             (map task_of five_tasks) eq_refl).
Defined.

End Tasks.

(** ** Documents *)

Module Documents.

Import PyFacts.






(** Once the site is known, the upload stops at the attribute read: no
    request is made. *)
Lemma upload_to_site_run (svc : Service) (name : string) (c : content)
    (folder_path : option string) (site : string) (log : list call) :
  upload_to_site svc name c folder_path site log = (Raise AttributeError, log).
Proof. reflexivity. Qed.


(** So is the listing. *)
Lemma list_site_documents_run (svc : Service) (folder_path : option string)
    (site : string) (log : list call) :
  list_site_documents svc folder_path site log = (Raise AttributeError, log).
Proof.
  unfold list_site_documents. now destruct (names_folder folder_path).
Qed.



(** The path that line 289 gives a record: the folder path as it was
    passed, so ["root"] for the folder ["root"]. *)
Lemma document_of_root_path (item : DriveItem) :
  document_path (document_of (Some "root") item) = Some "root"
  /\ document_path (document_of None item) = Some "/".
Proof. split; reflexivity. Qed.






End Documents.

(** ** Defaulted fields of the records *)

Module Records.

(** Where the provider writes [x or ""], the field is never [None]: the
    ids of the listed records, and the sender and the time stamp of a
    message. *)
Lemma or_str_defaults :
  (forall u, exists s, user_id (user_of u) = Some s
                       /\ (u_id u = None -> s = ""))
  /\ (forall team ch, exists s, channel_id (channel_of_team team ch) = Some s
                                /\ (c_id ch = None -> s = ""))
  /\ (forall c msg, exists s, message_id (message_of c msg) = Some s
                              /\ (m_id msg = None -> s = ""))
  /\ (forall c msg, message_sender (message_of c msg) = Some (sender_of msg))
  /\ (forall c msg, m_body msg = None ->
                    message_content (message_of c msg) = Some "")
  /\ (forall f item, exists s, document_id (document_of f item) = Some s
                               /\ (d_id item = None -> s = ""))
  /\ (forall t, exists s, task_id (task_of t) = Some s
                          /\ (t_id t = None -> s = "")).
Proof.
  repeat split; intros; cbn;
    try (eexists; split; [reflexivity | intros ->; reflexivity]).
  rewrite H. reflexivity.
Qed.

(** C8. One record escapes the defaults: a message whose body is present
    and has no content yields a [Message] whose content is [None], not a
    string. *)
Theorem defaulted_fields_left_null :
  exists record,
    fst (get_messages (messages_service [bodiless_content]) "c" 20
           (Some "t") []) = Ok [record]
    /\ message_content record = None.
Proof. eexists; split; reflexivity. Qed.

End Records.

(** ** Configuration loader: more properties *)

Module ConfigMore.

Import PyFacts.

Lemma contains_app (c : ascii) (x y : string) :
  Py.contains c (x ++ y) = Py.contains c x || Py.contains c y.
Proof.
  induction x as [|a x IH]; [reflexivity|].
  cbn. rewrite IH. now rewrite orb_assoc.
Qed.

Lemma contains_strip (c : ascii) (x : string) :
  Py.contains c x = false -> Py.contains c (Py.strip x) = false.
Proof.
  destruct (strip_cut x) as (l & r & Hx & _). intro H.
  rewrite Hx, !contains_app in H.
  apply orb_false_iff in H. destruct H as [_ H].
  apply orb_false_iff in H. tauto.
Qed.

Lemma contains_split1 (c c' : ascii) (x : string) :
  Py.contains c x = false ->
  Py.contains c (fst (Py.split1 c' x)) = false
  /\ Py.contains c (snd (Py.split1 c' x)) = false.
Proof.
  induction x as [|a x IH]; cbn; [auto|].
  intro H. apply orb_false_iff in H. destruct H as [Ha Hx].
  destruct (Ascii.eqb a c'); cbn; [auto|].
  destruct (IH Hx) as [IH1 IH2].
  destruct (Py.split1 c' x) as [h t]; cbn in *. now rewrite Ha, IH1.
Qed.

Lemma In_set {V} (k k' : string) (v v' : V) (d : Py.dict V) :
  In (k, v) (Py.set k' v' d) -> (k = k' /\ v = v') \/ In (k, v) d.
Proof.
  induction d as [|[k0 v0] d IH]; cbn.
  - intros [[= <- <-] | []]. now left.
  - destruct (String.eqb k' k0) eqn:E; cbn.
    + apply String.eqb_eq in E. subst k0.
      intros [[= <- <-] | H]; [now left | right; now right].
    + intros [H | H]; [right; now left|].
      destruct (IH H) as [H' | H']; [now left | right; now right].
Qed.

(** Whatever the loop puts in the table comes from an entry. *)
Lemma In_fold_webhooks (k v : string) (l : list string) (d : Py.dict string) :
  In (k, v)
     (fold_left
        (fun webhooks pair =>
           if Py.contains "=" pair then
             let (n, u) := Py.split1 "=" pair in
             Py.set (Py.strip n) (Py.strip u) webhooks
           else webhooks) l d) ->
  In (k, v) d
  \/ exists e, In e l /\ Py.contains "=" e = true
               /\ k = entry_name e /\ v = entry_url e.
Proof.
  revert d. induction l as [|e l IH]; intros d H; [now left|].
  cbn [fold_left] in H. rewrite Config.webhook_round in H.
  destruct (IH _ H) as [Hd | (e' & He' & H')].
  - destruct (Py.contains "=" e) eqn:E.
    + destruct (In_set _ _ _ _ _ Hd) as [[-> ->] | Hd'].
      * right. exists e. repeat split; [now left | exact E].
      * now left.
    + now left.
  - right. exists e'. split; [now right | exact H'].
Qed.

Lemma In_parse_webhooks (k v s : string) :
  In (k, v) (parse_webhooks s) ->
  exists e, In e (webhook_entries s) /\ k = entry_name e /\ v = entry_url e.
Proof.
  unfold parse_webhooks, webhook_entries.
  destruct (String.eqb s ""); [intros []|].
  intro H. apply In_fold_webhooks in H.
  destruct H as [[] | (e & He & Hc & Hk & Hv)].
  exists e. split; [|now split]. apply filter_In. now split.
Qed.

(** The table agrees with the last entry of each name. *)
Lemma get_parse_webhooks (name s : string) :
  Py.get name (parse_webhooks s) = last_url name (webhook_entries s).
Proof.
  unfold parse_webhooks, webhook_entries.
  destruct (String.eqb s "") eqn:E.
  - apply String.eqb_eq in E. now subst s.
  - rewrite Config.get_fold_webhooks. now destruct (last_url name _).
Qed.

Lemma from_env_Ok_inv (env : environ) (cfg : M365Config) :
  from_env env = Ok cfg ->
  exists t c s,
    env "M365_TENANT_ID" = Some t /\ t <> ""
    /\ env "M365_CLIENT_ID" = Some c /\ c <> ""
    /\ env "M365_CLIENT_SECRET" = Some s /\ s <> ""
    /\ cfg = {| tenant_id := t; client_id := c; client_secret := s;
                webhooks := parse_webhooks
                  (Py.default (env "M365_TEAMS_WEBHOOKS") "") |}.
Proof.
  unfold from_env.
  destruct (Py.truthy (env "M365_TENANT_ID")) eqn:Ht; [|discriminate].
  destruct (Py.truthy (env "M365_CLIENT_ID")) eqn:Hc; [|discriminate].
  destruct (Py.truthy (env "M365_CLIENT_SECRET")) eqn:Hs; [|discriminate].
  cbn. intros [= <-].
  apply truthy_true in Ht, Hc, Hs.
  destruct Ht as (t & Ht & Ht'), Hc as (c & Hc & Hc'),
           Hs as (s & Hs & Hs').
  exists t, c, s. rewrite Ht, Hc, Hs. repeat split; assumption.
Qed.

(** X1. The loader succeeds exactly when the three required variables are
    present and non-empty; the configuration then carries their values
    unchanged, and the table parsed from [M365_TEAMS_WEBHOOKS] (the empty
    table when the variable is unset). *)
Theorem from_env_succeeds_iff (env : environ) :
  ((exists cfg, from_env env = Ok cfg) <->
   (exists t c s,
       env "M365_TENANT_ID" = Some t /\ t <> ""
       /\ env "M365_CLIENT_ID" = Some c /\ c <> ""
       /\ env "M365_CLIENT_SECRET" = Some s /\ s <> ""))
  /\ (forall cfg,
        from_env env = Ok cfg ->
        env "M365_TENANT_ID" = Some (tenant_id cfg)
        /\ env "M365_CLIENT_ID" = Some (client_id cfg)
        /\ env "M365_CLIENT_SECRET" = Some (client_secret cfg)
        /\ webhooks cfg =
           parse_webhooks (Py.default (env "M365_TEAMS_WEBHOOKS") "")
        /\ (env "M365_TEAMS_WEBHOOKS" = None -> webhooks cfg = [])).
Proof.
  split; [split|].
  - intros (cfg & H). destruct (from_env_Ok_inv env cfg H) as (t & c & s & H').
    exists t, c, s. tauto.
  - intros (t & c & s & Ht & Ht' & Hc & Hc' & Hs & Hs').
    eexists. now apply (Config.from_env_ok env t c s).
  - intros cfg H.
    destruct (from_env_Ok_inv env cfg H)
      as (t & c & s & Ht & _ & Hc & _ & Hs & _ & ->).
    cbn. repeat split; try assumption. now intros ->.
Qed.

Lemma from_env_succeeds_iff_witness :
  exists cfg, from_env env_full = Ok cfg
              /\ env_full "M365_CLIENT_SECRET" = Some (client_secret cfg).
Proof.
  destruct (proj2 (proj1 (from_env_succeeds_iff env_full))) as [cfg H].
  - exists "contoso", "app", "s3cret".
    repeat split; try reflexivity; discriminate.
  - exists cfg. split; [exact H|].
    exact (proj1 (proj2 (proj2 (proj2 (from_env_succeeds_iff env_full) cfg H)))).
Defined.

(** X2. Every name and every URL of the parsed table is stripped: it has no
    white space at either end. A name holds neither a comma nor an equals
    sign, and a URL holds no comma. *)
Theorem parse_webhooks_trimmed (s k v : string) :
  In (k, v) (parse_webhooks s) ->
  trimmed k /\ trimmed v
  /\ Py.contains "," k = false /\ Py.contains "=" k = false
  /\ Py.contains "," v = false.
Proof.
  intro H. apply In_parse_webhooks in H.
  destruct H as (e & He & -> & ->).
  apply filter_In in He. destruct He as [He Hc].
  assert (Hcomma : Py.contains "," e = false).
  { pose proof (split_pieces "," s) as Hp.
    rewrite Forall_forall in Hp. now apply Hp. }
  destruct (contains_split1 "," "=" e Hcomma) as [Hn Hu].
  destruct (split1_cut "=" e Hc) as [_ Heq].
  unfold entry_name, entry_url, trimmed.
  destruct (strip_cut (fst (Py.split1 "=" e)))
    as (l & r & _ & _ & _ & Hf & Hl).
  destruct (strip_cut (snd (Py.split1 "=" e)))
    as (l' & r' & _ & _ & _ & Hf' & Hl').
  repeat split; try assumption; now apply contains_strip.
Qed.

Lemma parse_webhooks_trimmed_witness :
  trimmed "alerts" /\ trimmed "https://b".
Proof.
  destruct (parse_webhooks_trimmed "general=https://a, alerts = https://b "
              "alerts" "https://b") as (Hk & Hv & _).
  - right; left; reflexivity.
  - now split.
Defined.

Lemma first_occurrences_ext (seen seen' l : list string) :
  (forall x, In x seen <-> In x seen') ->
  first_occurrences seen l = first_occurrences seen' l.
Proof.
  revert seen seen'. induction l as [|x l IH]; intros seen seen' H;
    [reflexivity|].
  cbn. destruct (in_dec string_dec x seen) as [Hi | Hn],
                (in_dec string_dec x seen') as [Hi' | Hn'].
  - now apply IH.
  - apply H in Hi. contradiction.
  - apply H in Hi'. contradiction.
  - f_equal. apply IH. intro y. cbn. now rewrite H.
Qed.

Lemma keys_fold_order (l : list string) (d : Py.dict string) :
  Py.keys
    (fold_left
       (fun webhooks pair =>
          if Py.contains "=" pair then
            let (n, u) := Py.split1 "=" pair in
            Py.set (Py.strip n) (Py.strip u) webhooks
          else webhooks) l d) =
  Py.keys d ++
  first_occurrences (Py.keys d)
    (map entry_name (filter (Py.contains "=") l)).
Proof.
  revert d. induction l as [|e l IH]; intro d.
  - cbn. now rewrite app_nil_r.
  - cbn [fold_left filter]. rewrite IH, Config.webhook_round.
    destruct (Py.contains "=" e); [|reflexivity].
    cbn [map first_occurrences]. rewrite keys_set.
    destruct (in_dec string_dec (entry_name e) (Py.keys d)) as [Hi | Hn].
    + reflexivity.
    + rewrite <- app_assoc. cbn [app]. do 2 f_equal.
      apply first_occurrences_ext. intro x.
      rewrite in_app_iff. cbn. tauto.
Qed.

(** X3. The names of the table are the names of the entries, each once, in
    the order in which they first occur in the string (this is the order
    in which [post_message] lists them in its error). *)
Theorem parse_webhooks_key_order (s : string) :
  Py.keys (parse_webhooks s) =
  first_occurrences [] (map entry_name (webhook_entries s)).
Proof.
  unfold parse_webhooks, webhook_entries.
  destruct (String.eqb s "") eqn:E.
  - apply String.eqb_eq in E. now subst s.
  - now rewrite keys_fold_order.
Qed.

Lemma split_no_sep (c : ascii) (x : string) :
  Py.contains c x = false -> Py.split c x = [x].
Proof.
  induction x as [|a x IH]; [reflexivity|].
  cbn. intro H. apply orb_false_iff in H. destruct H as [Ha Hx].
  now rewrite Ha, (IH Hx).
Qed.

Lemma split_app_sep (c : ascii) (x y : string) :
  Py.contains c x = false ->
  Py.split c (x ++ String c y) = x :: Py.split c y.
Proof.
  induction x as [|a x IH]; cbn.
  - intros _. now rewrite Ascii.eqb_refl.
  - intro H. apply orb_false_iff in H. destruct H as [Ha Hx].
    now rewrite Ha, (IH Hx).
Qed.

(** Splitting undoes joining, for pieces without the separator. *)
Lemma split_join (c : ascii) (l : list string) :
  l <> [] -> Forall (fun x => Py.contains c x = false) l ->
  Py.split c (Py.join (String c "") l) = l.
Proof.
  induction l as [|x l IH]; [contradiction|].
  intros _ H. inversion H as [|? ? Hx Hl]; subst.
  destruct l as [|y l].
  - now apply split_no_sep.
  - rewrite join_cons by discriminate.
    change (x ++ String c "" ++ Py.join (String c "") (y :: l))%string
      with (x ++ String c (Py.join (String c "") (y :: l)))%string.
    rewrite (split_app_sep c x _ Hx). f_equal. now apply IH.
Qed.

Lemma split1_app (c : ascii) (k v : string) :
  Py.contains c k = false -> Py.split1 c (k ++ String c v) = (k, v).
Proof.
  induction k as [|a k IH]; cbn.
  - intros _. now rewrite Ascii.eqb_refl.
  - intro H. apply orb_false_iff in H. destruct H as [Ha Hk].
    now rewrite Ha, (IH Hk).
Qed.

Lemma set_fresh {V} (k : string) (v : V) (d : Py.dict V) :
  ~ In k (Py.keys d) -> Py.set k v d = d ++ [(k, v)].
Proof.
  unfold Py.keys. induction d as [|[k0 v0] d IH]; cbn; [reflexivity|].
  intro H. destruct (String.eqb k k0) eqn:E.
  - apply String.eqb_eq in E. subst. tauto.
  - rewrite IH by tauto. reflexivity.
Qed.

Lemma format_entry_read (kv : string * string) :
  entry_ok kv ->
  Py.contains "=" (format_entry kv) = true
  /\ Py.contains "," (format_entry kv) = false
  /\ entry_name (format_entry kv) = fst kv
  /\ entry_url (format_entry kv) = snd kv.
Proof.
  destruct kv as [k v]. unfold entry_ok, format_entry, entry_name, entry_url.
  cbn [fst snd]. intros (Hk1 & Hk2 & Hv1 & Hk3 & Hv3).
  change (k ++ "=" ++ v)%string with (k ++ String "=" v)%string.
  rewrite (split1_app "=" k v Hk2). cbn [fst snd].
  rewrite !contains_app. cbn [Py.contains]. rewrite Hk1, Hk2, Hv1.
  repeat split; try assumption; reflexivity.
Qed.

Lemma fold_format (d acc : Py.dict string) :
  NoDup (Py.keys acc ++ Py.keys d) -> Forall entry_ok d ->
  fold_left
    (fun webhooks pair =>
       if Py.contains "=" pair then
         let (n, u) := Py.split1 "=" pair in
         Py.set (Py.strip n) (Py.strip u) webhooks
       else webhooks) (map format_entry d) acc =
  acc ++ d.
Proof.
  revert acc. induction d as [|kv d IH]; intros acc Hnd Hok.
  - cbn. now rewrite app_nil_r.
  - inversion Hok as [|? ? Hkv Hd]; subst.
    cbn [map fold_left]. rewrite Config.webhook_round.
    destruct (format_entry_read kv Hkv) as (He & _ & Hn & Hu).
    rewrite He, Hn, Hu.
    assert (Hfresh : ~ In (fst kv) (Py.keys acc)).
    { intro Hin. apply NoDup_remove_2 in Hnd. apply Hnd.
      apply in_or_app. now left. }
    rewrite (set_fresh _ _ _ Hfresh). rewrite IH; [|
      unfold Py.keys in *; rewrite map_app, <- app_assoc; exact Hnd | exact Hd].
    rewrite <- app_assoc. destruct kv. reflexivity.
Qed.

(** X4. Reading back a table written in the loader's format gives the
    table: [parse_webhooks (format_webhooks d) = d] for a table with
    distinct, stripped names and URLs free of separators. *)
Theorem parse_format_webhooks (d : Py.dict string) :
  table_ok d -> parse_webhooks (format_webhooks d) = d.
Proof.
  intros [Hnd Hok]. destruct d as [|kv d]; [reflexivity|].
  unfold parse_webhooks, format_webhooks.
  assert (Hpieces : Forall (fun x => Py.contains "," x = false)
                           (map format_entry (kv :: d))).
  { apply Forall_forall. intros x Hx. apply in_map_iff in Hx.
    destruct Hx as (kv' & <- & Hin). rewrite Forall_forall in Hok.
    now destruct (format_entry_read kv' (Hok kv' Hin)) as (_ & H & _). }
  assert (Hnil : map format_entry (kv :: d) <> []) by discriminate.
  assert (Hne : String.eqb (Py.join "," (map format_entry (kv :: d))) ""
                = false).
  { apply String.eqb_neq. intro H.
    pose proof (split_join "," (map format_entry (kv :: d))
                  Hnil Hpieces) as Hs.
    rewrite H in Hs. cbn in Hs. injection Hs as Hs _.
    inversion Hok as [|? ? Hkv _]; subst.
    destruct (format_entry_read kv Hkv) as (He & _).
    rewrite <- Hs in He. discriminate He. }
  rewrite Hne, (split_join "," _ Hnil Hpieces).
  now rewrite fold_format.
Qed.

Lemma parse_format_webhooks_witness :
  parse_webhooks
    (format_webhooks [("general", "https://a"); ("alerts", "https://b")]) =
  [("general", "https://a"); ("alerts", "https://b")].
Proof.
  apply parse_format_webhooks. split.
  - repeat constructor; cbn; intuition discriminate.
  - repeat constructor.
Defined.

(** X5. The loader, the constructor and [post_message] together: for a
    provider built from an environment, a post to a channel goes to the
    URL of the channel's last entry in [M365_TEAMS_WEBHOOKS], and a
    channel with no entry there (or with an empty URL) is refused with
    nothing posted. *)
Theorem env_channel_is_posted (check : credential_check) (env : environ)
    (c : option (Py.dict string))
    (p : M365Provider) (svc : Service) (channel_name message : string)
    (title : option string) (log : list call) :
  M365Provider_init check env c = Ok p ->
  let entries :=
    webhook_entries (Py.default (env "M365_TEAMS_WEBHOOKS") "") in
  (forall url, last_url channel_name entries = Some url -> url <> "" ->
     snd (post_message svc p channel_name message title log) =
     log ++ [HttpPost url (payload_of message title)])
  /\ (last_url channel_name entries = None
      \/ last_url channel_name entries = Some "" ->
      exists msg,
        post_message svc p channel_name message title log =
        (Raise (ValueError msg), log)).
Proof.
  unfold M365Provider_init. destruct (from_env env) as [cfg|e] eqn:E;
    [|discriminate].
  destruct (check _ _ _); [discriminate|].
  intros [= <-].
  destruct (from_env_Ok_inv env cfg E)
    as (t & c' & s & _ & _ & _ & _ & _ & _ & ->).
  unfold post_message. cbn [_config webhooks].
  rewrite get_parse_webhooks. split.
  - intros url -> Hne. destruct url; [contradiction|].
    cbn [Py.truthy negb Py.default]. unfold bind, await.
    now destruct (http_post svc _ _).
  - intros [-> | ->]; eexists; reflexivity.
Qed.

Lemma env_channel_is_posted_witness :
  exists p,
    M365Provider_init accepting env_full None = Ok p
    /\ snd (post_message (webhook_service 200) p "alerts" "hi" None []) =
       [HttpPost "https://b" (text_payload "hi")].
Proof.
  destruct (Construction.init_env_full None) as (p & Hp & _).
  exists p. split; [exact Hp|].
  apply (proj1 (env_channel_is_posted accepting env_full None p
                  (webhook_service 200)
                  "alerts" "hi" None [] Hp) "https://b");
    [reflexivity | discriminate].
Defined.

End ConfigMore.

(** ** Users *)

Module Users.

Import PyFacts.

Lemma list_users_run (svc : Service) (limit : Z) (log : list call) :
  list_users svc limit log =
  (match users_get svc limit with
   | Ok (Some answer) => Ok (map user_of (Py.or_nil (value answer)))
   | Ok None => Raise AttributeError
   | Raise e => Raise e
   end, log ++ [UsersGet limit]).
Proof.
  unfold list_users, bind, await, attr, ret, raise.
  now destruct (users_get svc limit) as [[answer|]|e].
Qed.

Lemma user_of_email (u : GraphUser) :
  (forall m, u_mail u = Some m -> m <> "" -> user_email (user_of u) = Some m)
  /\ (u_mail u = None \/ u_mail u = Some "" ->
      user_email (user_of u) = u_user_principal_name u).
Proof.
  unfold user_of, Py.or_else. cbn. split.
  - intros m -> Hm. destruct m; [contradiction | reflexivity].
  - intros [-> | ->]; reflexivity.
Qed.

(** X6. [list_users] sends [limit] to the service as [top] and returns one
    record for every user of the answer, in the answer's order; it does
    not cut the answer down to [limit] itself. A record's email is the
    user's mail address when that is non-empty and the principal name
    otherwise (so it is absent when both are). *)
Theorem list_users_all_returned (svc : Service) (limit : Z) (log : list call)
    (answer : collection GraphUser) :
  users_get svc limit = Ok (Some answer) ->
  exists users,
    list_users svc limit log = (Ok users, log ++ [UsersGet limit])
    /\ length users = length (Py.or_nil (value answer))
    /\ Forall2
         (fun u r =>
            (forall m, u_mail u = Some m -> m <> "" -> user_email r = Some m)
            /\ (u_mail u = None \/ u_mail u = Some "" ->
                user_email r = u_user_principal_name u)
            /\ user_department r = u_department u)
         (Py.or_nil (value answer)) users.
Proof.
  intro H. exists (map user_of (Py.or_nil (value answer))).
  rewrite list_users_run, H. split; [reflexivity|].
  split; [apply length_map|].
  induction (Py.or_nil (value answer)) as [|u l IH]; cbn [map];
    constructor; [|exact IH].
  destruct (user_of_email u) as [H1 H2]. now repeat split.
Qed.

Lemma list_users_all_returned_witness :
  exists users,
    list_users (users_service three_users) 1 [] = (Ok users, [UsersGet 1])
    /\ length users = 3
    /\ map user_email users =
       [Some "ada@contoso.com"; Some "bob@contoso.onmicrosoft.com"; None].
Proof.
  destruct (list_users_all_returned (users_service three_users) 1 []
              {| value := Some three_users |} eq_refl)
    as (users & Hrun & Hlen & _).
  exists users. split; [exact Hrun|]. split; [exact Hlen|].
  injection Hrun as <-. reflexivity.
Defined.

(** X7. [get_user] makes one request. An empty answer raises the
    [ValueError] that names the id asked for; an error of the service is
    passed on as it is; a user is returned as a record. *)
Theorem get_user_spec (svc : Service) (id : string) (log : list call) :
  snd (get_user svc id log) = log ++ [UserGet id]
  /\ (user_get svc id = Ok None ->
      fst (get_user svc id log) =
      Raise (ValueError [FLit "User not found: "; FStr id]))
  /\ (forall u, user_get svc id = Ok (Some u) ->
      fst (get_user svc id log) = Ok (user_of u))
  /\ (forall e, user_get svc id = Raise e ->
      fst (get_user svc id log) = Raise e).
Proof.
  unfold get_user, bind, await, ret, raise.
  destruct (user_get svc id) as [[u|]|e]; cbn; repeat split;
    try discriminate; try (now intros ? [= ->]).
Qed.

Lemma get_user_spec_witness :
  fst (get_user (users_service three_users) "9" []) =
    Raise (ValueError [FLit "User not found: "; FStr "9"])
  /\ fst (get_user (users_service three_users) "2" []) =
       Ok (user_of (graph_user (Some "2") None
                      (Some "bob@contoso.onmicrosoft.com"))).
Proof.
  split.
  - exact (proj1 (proj2 (get_user_spec (users_service three_users) "9" []))
             eq_refl).
  - exact (proj1 (proj2 (proj2 (get_user_spec (users_service three_users)
                                  "2" [])))
             _ eq_refl).
Defined.

End Users.

(** ** Channels: more properties *)

Module ChannelsMore.

Import PyFacts.

(** X8. With a team id, [list_channels] makes the one request for that
    team and nothing is swallowed: an error of the service and an empty
    answer both fail the call. On success every channel of the answer is
    returned, in order, with the team id asked for and no team name. *)
Theorem list_channels_of_team (svc : Service) (tid : string)
    (log : list call) :
  tid <> "" ->
  snd (list_channels svc (Some tid) log) = log ++ [TeamChannelsGet tid]
  /\ (forall e, team_channels_get svc tid = Raise e ->
      fst (list_channels svc (Some tid) log) = Raise e)
  /\ (team_channels_get svc tid = Ok None ->
      fst (list_channels svc (Some tid) log) = Raise AttributeError)
  /\ (forall answer,
        team_channels_get svc tid = Ok (Some answer) ->
        exists channels,
          fst (list_channels svc (Some tid) log) = Ok channels
          /\ Forall2
               (fun ch c =>
                  channel_id c = Some (Py.or_str (c_id ch) "")
                  /\ channel_name c = Some (Py.or_str (c_display_name ch) "")
                  /\ channel_description c = c_description ch
                  /\ channel_team_id c = Some tid
                  /\ channel_team_name c = None)
               (Py.or_nil (value answer)) channels).
Proof.
  intro Hne. destruct tid as [|a tid]; [contradiction|].
  unfold list_channels. cbn [Py.truthy Py.default].
  unfold bind, await, attr, ret, raise.
  destruct (team_channels_get svc _) as [[answer|]|e]; cbn;
    repeat split; try discriminate; try (now intros ? [= ->]).
  intros answer' [= <-]. eexists. split; [reflexivity|].
  induction (Py.or_nil (value answer)) as [|ch l IH]; cbn [map];
    constructor; [now repeat split | exact IH].
Qed.

Lemma list_channels_of_team_witness :
  fst (list_channels seven_teams_service (Some "t2") []) =
    Raise (TransportError "403 Forbidden")
  /\ snd (list_channels seven_teams_service (Some "t2") []) =
       [TeamChannelsGet "t2"].
Proof.
  assert (Hne : "t2" <> "") by discriminate.
  split.
  - exact (proj1 (proj2 (list_channels_of_team seven_teams_service "t2" []
                           Hne)) _ eq_refl).
  - exact (proj1 (list_channels_of_team seven_teams_service "t2" [] Hne)).
Defined.

Lemma list_channels_all_run (svc : Service) (team_id : option string)
    (log : list call) :
  Py.truthy team_id = false ->
  list_channels svc team_id log =
  match groups_get svc with
  | Ok (Some teams) =>
      (Ok (flat_map (team_contribution svc)
                    (firstn 5 (Py.or_nil (value teams)))),
       log ++ GroupsGet ::
         map TeamChannelsGet
             (queried_ids (firstn 5 (Py.or_nil (value teams)))))
  | Ok None => (Raise AttributeError, log ++ [GroupsGet])
  | Raise e => (Raise e, log ++ [GroupsGet])
  end.
Proof.
  intro Ht. unfold list_channels. rewrite Ht.
  unfold bind at 1, await at 1.
  destruct (groups_get svc) as [[teams|]|e]; try reflexivity.
  unfold bind at 1. cbn [attr ret].
  rewrite Channels.for_each_teams. cbn [app].
  now rewrite <- app_assoc.
Qed.

(** X9. With no team id, the list of teams must be read: when that request
    fails, or answers nothing, the whole call fails and no team is asked
    for its channels. *)
Theorem list_channels_listing_fails (svc : Service) (team_id : option string)
    (log : list call) :
  team_id = None \/ team_id = Some "" ->
  (forall e, groups_get svc = Raise e ->
     list_channels svc team_id log = (Raise e, log ++ [GroupsGet]))
  /\ (groups_get svc = Ok None ->
      list_channels svc team_id log =
      (Raise AttributeError, log ++ [GroupsGet])).
Proof.
  intros H. assert (Ht : Py.truthy team_id = false)
    by (destruct H as [-> | ->]; reflexivity).
  unfold list_channels. rewrite Ht. unfold bind, await, attr, raise.
  split; [intros e -> | intros ->]; reflexivity.
Qed.

Lemma list_channels_listing_fails_witness :
  list_channels no_service None [] =
  (Raise (TransportError "unreachable"), [GroupsGet]).
Proof.
  apply (proj1 (list_channels_listing_fails no_service None []
                  (or_introl eq_refl))).
  reflexivity.
Defined.

Lemma team_contribution_tagged (svc : Service) (team : Group) :
  Forall (fun c => (exists i, channel_id c = Some i)
                   /\ (exists n, channel_name c = Some n)
                   /\ exists tid, channel_team_id c = Some tid /\ tid <> "")
         (team_contribution svc team).
Proof.
  apply Forall_forall. intros c Hc.
  apply Channels.In_team_contribution in Hc.
  destruct Hc as (tid & answer & ch & Hid & Hne & _ & _ & ->).
  cbn. repeat split; eauto.
Qed.

(** X10. Whatever the service answers, [list_channels] makes at most six
    requests (one for the teams, five for channels), all added to the end
    of the log; and every channel it returns has an id and a name that
    are strings, and the non-empty id of its team. *)
Theorem list_channels_bounded (svc : Service) (team_id : option string)
    (log : list call) :
  exists calls,
    snd (list_channels svc team_id log) = log ++ calls
    /\ length calls <= 6
    /\ forall channels,
         fst (list_channels svc team_id log) = Ok channels ->
         Forall (fun c => (exists i, channel_id c = Some i)
                          /\ (exists n, channel_name c = Some n)
                          /\ exists tid,
                               channel_team_id c = Some tid /\ tid <> "")
                channels.
Proof.
  destruct (Py.truthy team_id) eqn:Ht.
  - unfold list_channels. rewrite Ht.
    apply truthy_true in Ht. destruct Ht as (tid & -> & Hne).
    cbn [Py.default]. unfold bind, await, attr, ret, raise.
    exists [TeamChannelsGet tid].
    destruct (team_channels_get svc tid) as [[answer|]|e]; cbn;
      repeat split; try lia; try discriminate.
    intros channels [= <-]. apply Forall_forall. intros c Hc.
    apply in_map_iff in Hc. destruct Hc as (ch & <- & _). cbn.
    repeat split; eauto.
  - rewrite (list_channels_all_run _ _ _ Ht).
    destruct (groups_get svc) as [[teams|]|e].
    + exists (GroupsGet ::
              map TeamChannelsGet
                  (queried_ids (firstn 5 (Py.or_nil (value teams))))).
      cbn [fst snd]. split; [reflexivity|]. split.
      * cbn [length]. rewrite length_map.
        pose proof (Channels.queried_ids_length
                      (firstn 5 (Py.or_nil (value teams)))) as H.
        rewrite length_firstn in H. lia.
      * intros channels [= <-].
        apply Forall_forall. intros c Hc. apply in_flat_map in Hc.
        destruct Hc as (team & _ & Hc).
        pose proof (team_contribution_tagged svc team) as H.
        rewrite Forall_forall in H. now apply H.
    + exists [GroupsGet]. cbn. repeat split; try lia. discriminate.
    + exists [GroupsGet]. cbn. repeat split; try lia. discriminate.
Qed.

Lemma list_channels_bounded_witness :
  exists calls,
    snd (list_channels seven_teams_service None []) = calls
    /\ length calls <= 6.
Proof.
  destruct (list_channels_bounded seven_teams_service None [])
    as (calls & Hlog & Hlen & _).
  exists calls. split; [exact Hlog | exact Hlen].
Defined.

End ChannelsMore.

(** ** Channel messages: more properties *)

Module MessagesMore.

Import PyFacts.

Lemma get_messages_run (svc : Service) (channel_id tid : string) (limit : Z)
    (log : list call) :
  tid <> "" ->
  get_messages svc channel_id limit (Some tid) log =
  (match channel_messages_get svc tid channel_id with
   | Ok (Some answer) =>
       Ok (map (message_of channel_id)
               (Py.slice_to limit (Py.or_nil (value answer))))
   | Ok None => Raise AttributeError
   | Raise e => Raise e
   end, log ++ [ChannelMessagesGet tid channel_id]).
Proof.
  intro Hne. destruct tid as [|a tid]; [contradiction|].
  unfold get_messages. cbn [Py.truthy negb Py.default].
  unfold bind, await, attr, ret, raise.
  now destruct (channel_messages_get svc _ _) as [[answer|]|e].
Qed.

Lemma slice_to_length {A} (n : Z) (l : list A) :
  Z.of_nat (length (Py.slice_to n l)) =
  if (0 <=? n)%Z then Z.min n (Z.of_nat (length l))
  else Z.max 0 (Z.of_nat (length l) + n).
Proof.
  unfold Py.slice_to. destruct (0 <=? n)%Z eqn:E; rewrite length_firstn.
  - apply Z.leb_le in E. lia.
  - apply Z.leb_gt in E. lia.
Qed.

(** X11. How many messages come back: with [n] messages in the channel,
    [min limit n] for a [limit] that is not negative (none for [limit = 0],
    although the request is still made), and [max 0 (n + limit)] for a
    negative [limit], which drops messages from the end of the list. *)
Theorem get_messages_count (svc : Service) (channel_id tid : string)
    (limit : Z) (log : list call) (answer : collection ChatMessage) :
  tid <> "" ->
  channel_messages_get svc tid channel_id = Ok (Some answer) ->
  exists messages,
    get_messages svc channel_id limit (Some tid) log =
      (Ok messages, log ++ [ChannelMessagesGet tid channel_id])
    /\ Z.of_nat (length messages) =
       (if (0 <=? limit)%Z
        then Z.min limit (Z.of_nat (length (Py.or_nil (value answer))))
        else Z.max 0 (Z.of_nat (length (Py.or_nil (value answer))) + limit))
    /\ (limit = 0%Z -> messages = []).
Proof.
  intros Hne H. rewrite (get_messages_run _ _ _ _ _ Hne), H.
  eexists. split; [reflexivity|]. split.
  - rewrite length_map. apply slice_to_length.
  - intros ->. reflexivity.
Qed.

Lemma get_messages_count_witness :
  exists messages,
    get_messages (messages_service two_messages) "c" (-1) (Some "t") [] =
      (Ok messages, [ChannelMessagesGet "t" "c"])
    /\ Z.of_nat (length messages) = 1%Z.
Proof.
  assert (Hne : "t" <> "") by discriminate.
  destruct (get_messages_count (messages_service two_messages) "c" "t" (-1)
              [] {| value := Some two_messages |} Hne eq_refl)
    as (messages & Hrun & Hlen & _).
  exists messages. split; [exact Hrun | exact Hlen].
Defined.

(** X12. [get_messages] refuses an empty team id as it refuses a missing
    one, before any request. With a team id it makes one request; an
    error of the service is passed on as it is and an empty answer fails
    the call. Every record carries the channel id that was asked for, and
    an empty time stamp when the message has none. *)
Theorem get_messages_failures (svc : Service) (channel_id : string)
    (limit : Z) (log : list call) :
  get_messages svc channel_id limit (Some "") log =
    (Raise (ValueError [FLit "team_id is required for M365 channel messages"]),
     log)
  /\ (forall tid, tid <> "" ->
        snd (get_messages svc channel_id limit (Some tid) log) =
          log ++ [ChannelMessagesGet tid channel_id]
        /\ (forall e, channel_messages_get svc tid channel_id = Raise e ->
            fst (get_messages svc channel_id limit (Some tid) log) = Raise e)
        /\ (channel_messages_get svc tid channel_id = Ok None ->
            fst (get_messages svc channel_id limit (Some tid) log) =
            Raise AttributeError))
  /\ (forall msg,
        message_channel_id (message_of channel_id msg) = Some channel_id
        /\ (m_created_date_time msg = None ->
            message_timestamp (message_of channel_id msg) = Some "")).
Proof.
  split; [reflexivity|]. split.
  - intros tid Hne. rewrite (get_messages_run _ _ _ _ _ Hne). cbn [fst snd].
    split; [reflexivity|]. split; [intros e -> | intros ->]; reflexivity.
  - intro msg. split; [reflexivity|]. cbn. now intros ->.
Qed.

Lemma get_messages_failures_witness :
  fst (get_messages no_service "c" 20 (Some "t") []) =
    Raise (TransportError "unreachable")
  /\ message_timestamp (message_of "c" (chat "m2" None None)) = Some "".
Proof.
  pose proof (get_messages_failures no_service "c" 20 []) as (_ & H & Hm).
  assert (Hne : "t" <> "") by discriminate.
  split.
  - exact (proj1 (proj2 (H "t" Hne)) _ eq_refl).
  - exact (proj2 (Hm (chat "m2" None None)) eq_refl).
Defined.

End MessagesMore.

(** ** Webhook posting: more properties *)

Module WebhookMore.

Import PyFacts.

(** X13. [post_message] makes at most one request, and only to a URL of
    the configured table: either nothing is sent, or one POST of the
    payload goes to the non-empty URL recorded for that channel. No
    request to the Graph service is made. *)
Theorem post_message_only_configured (svc : Service) (self : M365Provider)
    (channel_name message : string) (title : option string)
    (log : list call) :
  exists calls,
    snd (post_message svc self channel_name message title log) = log ++ calls
    /\ (calls = []
        \/ exists url,
             calls = [HttpPost url (payload_of message title)]
             /\ Py.get channel_name (webhooks (_config self)) = Some url
             /\ url <> "").
Proof.
  unfold post_message.
  destruct (Py.get channel_name (webhooks (_config self))) as [[|a url]|].
  - exists []. cbn. rewrite app_nil_r. now split; [|left].
  - exists [HttpPost (String a url) (payload_of message title)].
    cbn [Py.truthy negb Py.default]. unfold bind, await, ret. split.
    + now destruct (http_post svc _ _).
    + right. exists (String a url). repeat split. discriminate.
  - exists []. cbn. rewrite app_nil_r. now split; [|left].
Qed.

End WebhookMore.

(** ** Tasks: more properties *)

Module TasksMore.

Import PyFacts.

(** X14. [list_tasks] treats an empty plan id as a missing one: empty
    list, no request. With a plan id it makes one request; an error of
    the service is passed on as it is, an empty answer fails the call, and
    otherwise there is one record per task of the plan, in order, whose
    due date is the task's (absent when the task has none). *)
Theorem list_tasks_edges (svc : Service) (log : list call) :
  list_tasks svc (Some "") log = (Ok [], log)
  /\ (forall pid, pid <> "" ->
        snd (list_tasks svc (Some pid) log) = log ++ [PlanTasksGet pid]
        /\ (forall e, plan_tasks_get svc pid = Raise e ->
            fst (list_tasks svc (Some pid) log) = Raise e)
        /\ (plan_tasks_get svc pid = Ok None ->
            fst (list_tasks svc (Some pid) log) = Raise AttributeError)
        /\ (forall answer, plan_tasks_get svc pid = Ok (Some answer) ->
            exists tasks,
              fst (list_tasks svc (Some pid) log) = Ok tasks
              /\ Forall2
                   (fun t r =>
                      task_id r = Some (Py.or_str (t_id t) "")
                      /\ task_title r = Some (Py.or_str (t_title t) "")
                      /\ task_due_date r =
                         option_map dt_str (t_due_date_time t))
                   (Py.or_nil (value answer)) tasks)).
Proof.
  split; [reflexivity|]. intros pid Hne.
  destruct pid as [|a pid]; [contradiction|].
  unfold list_tasks. cbn [Py.truthy negb Py.default].
  unfold bind, await, attr, ret, raise.
  destruct (plan_tasks_get svc _) as [[answer|]|e]; cbn;
    repeat split; try discriminate; try (now intros ? [= ->]).
  intros answer' [= <-]. eexists. split; [reflexivity|].
  induction (Py.or_nil (value answer)) as [|t l IH]; cbn [map];
    constructor; [|exact IH].
  repeat split.
Qed.

Lemma list_tasks_edges_witness :
  fst (list_tasks no_service (Some "p") []) =
    Raise (TransportError "unreachable")
  /\ snd (list_tasks no_service (Some "p") []) = [PlanTasksGet "p"].
Proof.
  assert (Hne : "p" <> "") by discriminate.
  pose proof (proj2 (list_tasks_edges no_service []) "p" Hne)
    as (Hlog & Herr & _).
  split; [exact (Herr _ eq_refl) | exact Hlog].
Defined.

End TasksMore.

(** ** Documents: more properties *)

Module DocumentsMore.

Import PyFacts.

(** The requests of a call: none when a site is given, the one for the
    sites otherwise. *)
Lemma list_documents_log (svc : Service)
    (folder_path site_id : option string) (log : list call) :
  (Py.truthy site_id = true
   /\ snd (list_documents svc folder_path site_id log) = log)
  \/ (Py.truthy site_id = false
      /\ snd (list_documents svc folder_path site_id log) =
         log ++ [SitesGet]).
Proof.
  unfold list_documents. destruct (Py.truthy site_id); cbn [negb].
  - left. now rewrite Documents.list_site_documents_run.
  - right. split; [reflexivity|]. unfold bind at 1, await at 1.
    destruct (sites_get svc) as [[sites|]|e]; try reflexivity.
    destruct (value sites) as [[|first rest]|]; try reflexivity.
    destruct (Py.truthy (s_id first)); cbn [negb]; [|reflexivity].
    now rewrite Documents.list_site_documents_run.
Qed.

Lemma upload_document_log (svc : Service) (name : string) (c : content)
    (folder_path site_id : option string) (log : list call) :
  (Py.truthy site_id = true
   /\ snd (upload_document svc name c folder_path site_id log) = log)
  \/ (Py.truthy site_id = false
      /\ snd (upload_document svc name c folder_path site_id log) =
         log ++ [SitesGet]).
Proof.
  unfold upload_document. destruct (Py.truthy site_id); cbn [negb].
  - left. now rewrite Documents.upload_to_site_run.
  - right. split; [reflexivity|]. unfold bind at 1, await at 1.
    destruct (sites_get svc) as [[sites|]|e]; try reflexivity.
    destruct (value sites) as [[|first rest]|]; try reflexivity.
    destruct (Py.truthy (s_id first)); cbn [negb]; [|reflexivity].
    now rewrite Documents.upload_to_site_run.
Qed.


(** X15. With no site given, [list_documents] asks for the sites. When
    the tenant has no site, or its first site has no id, the result is
    the empty list, not an error (where [upload_document] raises); an
    error of the sites request itself is passed on. Nothing else is
    requested. *)
Theorem list_documents_unresolved (svc : Service)
    (folder_path site_id : option string) (log : list call) :
  site_id = None \/ site_id = Some "" ->
  (no_default_site svc \/ first_site_without_id svc ->
   list_documents svc folder_path site_id log = (Ok [], log ++ [SitesGet]))
  /\ (forall e, sites_get svc = Raise e ->
      list_documents svc folder_path site_id log =
      (Raise e, log ++ [SitesGet])).
Proof.
  intro H. assert (Hf : Py.truthy site_id = false)
    by (destruct H as [-> | ->]; reflexivity).
  unfold list_documents. rewrite Hf. cbn [negb]. unfold bind, await, ret.
  split.
  - intros [[-> | (sites & -> & [-> | ->])]
           | (sites & first & rest & -> & -> & Hid)]; try reflexivity.
    apply truthy_false in Hid. now rewrite Hid.
  - now intros e ->.
Qed.

Lemma list_documents_unresolved_witness :
  list_documents (documents_service (one_site None) [] None) None None [] =
  (Ok [], [SitesGet]).
Proof.
  apply (proj1 (list_documents_unresolved
                  (documents_service (one_site None) [] None) None None []
                  (or_introl eq_refl))).
  right. exists {| value := Some [{| s_id := None |}] |}, {| s_id := None |}, [].
  repeat split. now left.
Defined.





(** X18. [list_documents] and [upload_document] make at most two requests
    whatever the service answers, added to the end of the log; with a
    site given they never ask for the sites. *)
Theorem documents_request_budget (svc : Service) (name : string)
    (c : content) (folder_path site_id : option string) (log : list call) :
  (exists calls,
      snd (list_documents svc folder_path site_id log) = log ++ calls
      /\ length calls <= 2
      /\ (Py.truthy site_id = true -> ~ In SitesGet calls))
  /\ (exists calls,
        snd (upload_document svc name c folder_path site_id log) =
          log ++ calls
        /\ length calls <= 2
        /\ (Py.truthy site_id = true -> ~ In SitesGet calls)).
Proof.
  split.
  - destruct (list_documents_log svc folder_path site_id log)
      as [[Ht H] | [Ht H]]; rewrite H.
    + exists []. rewrite app_nil_r.
      split; [reflexivity|]. split; [cbn; lia|]. now intros _ [].
    + exists [SitesGet]. split; [reflexivity|]. split; [cbn; lia|].
      rewrite Ht. discriminate.
  - destruct (upload_document_log svc name c folder_path site_id log)
      as [[Ht H] | [Ht H]]; rewrite H.
    + exists []. rewrite app_nil_r.
      split; [reflexivity|]. split; [cbn; lia|]. now intros _ [].
    + exists [SitesGet]. split; [reflexivity|]. split; [cbn; lia|].
      rewrite Ht. discriminate.
Qed.

Lemma documents_request_budget_witness :
  exists calls,
    snd (list_documents (documents_service None [] None) None (Some "s") []) =
      calls
    /\ ~ In SitesGet calls.
Proof.
  destruct (proj1 (documents_request_budget (documents_service None [] None)
                     "f" (Bytes []) None (Some "s") []))
    as (calls & Hlog & _ & Hno).
  exists calls. split; [exact Hlog | exact (Hno eq_refl)].
Defined.

End DocumentsMore.

(** ** Downloads and mail: properties *)

Module Mail.

Import PyFacts.


Lemma lift_list_users (svc : Service) (limit : Z) (log : list request) :
  lift (list_users svc limit) log =
  (match users_get svc limit with
   | Ok (Some answer) => Ok (map user_of (Py.or_nil (value answer)))
   | Ok None => Raise AttributeError
   | Raise e => Raise e
   end, log ++ [Graph (UsersGet limit)]).
Proof. unfold lift. now rewrite Users.list_users_run. Qed.






Lemma send_email_run (svc : Service) (mail : MailService)
    (to : list string) (subject body : string)
    (from_user sender : option string) (prefix log : list request) :
  sender_resolution svc from_user sender prefix ->
  send_email svc mail to subject body from_user log =
  (match send_mail_post mail sender (mail_request to subject body) with
   | Ok _ => Ok true
   | Raise e => Raise e
   end,
   log ++ prefix ++ [SendMailPost sender (mail_request to subject body)]).
Proof.
  intros [(u & -> & Hne & -> & ->)
         | (Hf & -> & answer & first & rest & Hget & Hval & ->)].
  - destruct u; [contradiction|]. unfold send_email.
    cbn [Py.truthy negb]. unfold xbind, xret, xawait. cbn [app].
    now destruct (send_mail_post mail _ _).
  - assert (Ht : Py.truthy from_user = false)
      by (destruct Hf as [-> | ->]; reflexivity).
    unfold send_email. rewrite Ht. cbn [negb].
    unfold xbind. rewrite lift_list_users, Hget, Hval. cbn [map].
    unfold xret, xawait. cbn [user_of user_id].
    rewrite <- app_assoc. cbn [app].
    now destruct (send_mail_post mail _ _).
Qed.

(** X20. With no sender given, [send_email] asks the directory for one
    user. When the directory is empty the call raises its [ValueError];
    when the request fails the error is passed on; in both cases no mail
    is sent. *)
Theorem send_email_no_sender (svc : Service) (mail : MailService)
    (to : list string) (subject body : string) (from_user : option string)
    (log : list request) :
  from_user = None \/ from_user = Some "" ->
  (forall answer,
     users_get svc 1 = Ok (Some answer) -> Py.or_nil (value answer) = [] ->
     send_email svc mail to subject body from_user log =
       (Raise (ValueError [FLit "No users available to send email from"]),
        log ++ [Graph (UsersGet 1)]))
  /\ (forall e,
        users_get svc 1 = Raise e ->
        send_email svc mail to subject body from_user log =
          (Raise e, log ++ [Graph (UsersGet 1)])).
Proof.
  intro H. assert (Ht : Py.truthy from_user = false)
    by (destruct H as [-> | ->]; reflexivity).
  unfold send_email. rewrite Ht. cbn [negb]. unfold xbind.
  rewrite lift_list_users. split.
  - intros answer -> ->. reflexivity.
  - intros e ->. reflexivity.
Qed.

Lemma send_email_no_sender_witness :
  send_email (users_service []) (mailbox_service None)
             ["a@contoso.com"] "Hi" "Hello" None [] =
  (Raise (ValueError [FLit "No users available to send email from"]),
   [Graph (UsersGet 1)]).
Proof.
  exact (proj1 (send_email_no_sender (users_service []) (mailbox_service None)
                  ["a@contoso.com"] "Hi" "Hello" None [] (or_introl eq_refl))
           {| value := Some [] |} eq_refl eq_refl).
Defined.

(** X21. Once the sender is known (the one given, or the id of the first
    user of the directory, which is the empty string when that user has
    no id), [send_email] posts one mail from that sender: plain text,
    the subject and body it was given, one recipient per address in the
    order given, to be saved in the sent items. It returns [True] whenever
    the post does not raise, and passes the error on when it does. *)
Theorem send_email_sends (svc : Service) (mail : MailService)
    (to : list string) (subject body : string)
    (from_user sender : option string) (prefix log : list request) :
  sender_resolution svc from_user sender prefix ->
  exists req,
    snd (send_email svc mail to subject body from_user log) =
      log ++ prefix ++ [SendMailPost sender req]
    /\ map (fun r => address (email_address r))
           (om_to_recipients (message req)) = to
    /\ om_subject (message req) = subject
    /\ om_body (message req) =
       {| mb_content_type := BodyType_Text; mb_content := body |}
    /\ save_to_sent_items req = true
    /\ (forall u, send_mail_post mail sender req = Ok u ->
        fst (send_email svc mail to subject body from_user log) = Ok true)
    /\ (forall e, send_mail_post mail sender req = Raise e ->
        fst (send_email svc mail to subject body from_user log) = Raise e).
Proof.
  intro Hres. exists (mail_request to subject body).
  rewrite (send_email_run _ _ _ _ _ _ _ _ _ Hres). cbn [fst snd].
  split; [reflexivity|]. split.
  - cbn. rewrite map_map. cbn. apply map_id.
  - repeat split.
    + now intros u ->.
    + now intros e ->.
Qed.

Lemma send_email_sends_witness :
  send_email (users_service three_users) (mailbox_service None)
             ["a@contoso.com"; "b@contoso.com"] "Hi" "Hello" None [] =
  (Ok true,
   [Graph (UsersGet 1);
    SendMailPost (Some "1")
      (mail_request ["a@contoso.com"; "b@contoso.com"] "Hi" "Hello")]).
Proof.
  assert (Hres : sender_resolution (users_service three_users) None (Some "1")
                   [Graph (UsersGet 1)]).
  { right. split; [now left|]. split; [reflexivity|].
    eexists {| value := Some three_users |}, _, _. repeat split. }
  destruct (send_email_sends (users_service three_users) (mailbox_service None)
              ["a@contoso.com"; "b@contoso.com"] "Hi" "Hello" None (Some "1")
              [Graph (UsersGet 1)] [] Hres)
    as (req & Hlog & _ & _ & _ & _ & Hok & _).
  apply injective_projections; [exact (Hok tt eq_refl)|].
  exact (f_equal snd (send_email_run (users_service three_users)
                        (mailbox_service None)
                        ["a@contoso.com"; "b@contoso.com"] "Hi" "Hello"
                        None (Some "1") [Graph (UsersGet 1)] [] Hres)).
Defined.

End Mail.

(** ** Provider construction: more properties *)

Module ConstructionMore.

(** X22. The constructor fails with the loader's error when the loader
    fails, and with the error of the credential's constructor when the
    loader succeeds and that constructor refuses the loaded values; in
    every other case it builds a provider. The credential of a provider
    carries the tenant id, client id and client secret of the
    environment, values its constructor accepted, and the client is built
    on that credential. *)
Theorem init_credential (check : credential_check) (env : environ)
    (c : option (Py.dict string)) :
  (forall e, from_env env = Raise e ->
     M365Provider_init check env c = Raise e)
  /\ (forall cfg e,
        from_env env = Ok cfg ->
        check (tenant_id cfg) (client_id cfg) (client_secret cfg) = Some e ->
        M365Provider_init check env c = Raise e)
  /\ (forall cfg,
        from_env env = Ok cfg ->
        check (tenant_id cfg) (client_id cfg) (client_secret cfg) = None ->
        exists p, M365Provider_init check env c = Ok p /\ _config p = cfg)
  /\ (forall p,
        M365Provider_init check env c = Ok p ->
        env "M365_TENANT_ID" = Some (cred_tenant_id (_credential p))
        /\ env "M365_CLIENT_ID" = Some (cred_client_id (_credential p))
        /\ env "M365_CLIENT_SECRET" =
           Some (cred_client_secret (_credential p))
        /\ check (cred_tenant_id (_credential p))
                 (cred_client_id (_credential p))
                 (cred_client_secret (_credential p)) = None
        /\ credentials (_client p) = _credential p).
Proof.
  unfold M365Provider_init. split; [|split; [|split]].
  - now intros e ->.
  - now intros cfg e -> ->.
  - intros cfg -> ->. eexists. split; reflexivity.
  - intros p. destruct (from_env env) as [cfg|e] eqn:E; [|discriminate].
    destruct (check _ _ _) eqn:Hc; [discriminate|].
    intros [= <-].
    destruct (ConfigMore.from_env_Ok_inv env cfg E)
      as (t & c' & s & Ht & _ & Hc' & _ & Hs & _ & ->).
    cbn in *. now repeat split.
Qed.

Lemma init_credential_witness :
  M365Provider_init refusing_spaces env_no_secret None =
    Raise (ValueError [FLit "Missing required environment variables: ";
                       FStr "M365_CLIENT_SECRET"])
  /\ M365Provider_init refusing_spaces env_spaced_tenant None =
       Raise (ValueError [FLit "Invalid tenant ID provided."])
  /\ exists p, M365Provider_init refusing_spaces env_full None = Ok p.
Proof.
  split; [|split].
  - exact (proj1 (init_credential refusing_spaces env_no_secret None)
             _ eq_refl).
  - exact (proj1 (proj2 (init_credential refusing_spaces env_spaced_tenant
                           None))
             _ _ eq_refl eq_refl).
  - destruct (proj1 (proj2 (proj2 (init_credential refusing_spaces env_full
                                     None)))
                _ eq_refl eq_refl) as (p & Hp & _).
    now exists p.
Defined.

End ConstructionMore.
